(** * Text Analysis and Retrieval Pipeline: a shallow embedding

    The development follows the Python sources of the knowledge extractor:

    - [app/services/llm_service.py]  (module [LLM]): retry loop, summary and
      metadata extraction, metadata validation, mock fallbacks;
    - [app/services/text_processor.py] (module [TextProc]): two-tier keyword
      extraction and the confidence score;
    - [app/main.py] (modules [Search] and [Main]): the search endpoint with
      its per-result relevance score, and the analysis endpoint.

    Modelling conventions.
    - Python [str] is [string]; characters are read as 7-bit ASCII code
      points (case mapping, whitespace and word characters are the ASCII
      fragments of Python's Unicode predicates).  A property that Unicode
      text would break is stated for ASCII text ([is_ascii]).
    - Python [int] is [Z]; list lengths and loop indices are [nat].
    - Python [float] scores are exact rationals [Q].
    - Exceptions are values of [exn]; a call that may raise returns a
      [result]; [try]/[except Exception] is [try_except].
    - External collaborators (the provider client, [json.loads], [str()] on
      non-string values, NLTK's tokenizer and tagger, the stop-word corpus)
      are Section variables. *)

From Stdlib Require Import List String Ascii ZArith QArith Lia Lqa Bool Arith.
From Stdlib Require Import DecimalString.
From Stdlib Require Import Permutation Sorted.
Import ListNotations.

Set Warnings "-register-all".

Open Scope string_scope.
Open Scope list_scope.
Open Scope nat_scope.

(* ===================================================================== *)
(** ** Python string primitives *)
(* ===================================================================== *)

Module PyStr.

Definition code (c : ascii) : nat := nat_of_ascii c.

Definition in_range (lo hi : nat) (c : ascii) : bool :=
  (lo <=? code c) && (code c <=? hi).

(** [str.isspace] on ASCII: TAB..CR, FS..US and the blank. *)
Definition is_space (c : ascii) : bool :=
  in_range 9 13 c || in_range 28 32 c.

Definition is_upper (c : ascii) : bool := in_range 65 90 c.
Definition is_lower (c : ascii) : bool := in_range 97 122 c.
Definition is_alpha (c : ascii) : bool := is_upper c || is_lower c.
Definition is_digit (c : ascii) : bool := in_range 48 57 c.

(** The regex class [\w]: letters, digits and the underscore. *)
Definition is_word (c : ascii) : bool :=
  is_alpha c || is_digit c || (code c =? 95).

Definition lower_char (c : ascii) : ascii :=
  if is_upper c then ascii_of_nat (code c + 32) else c.

Definition upper_char (c : ascii) : ascii :=
  if is_lower c then ascii_of_nat (code c - 32) else c.

Fixpoint map_chars (f : ascii -> ascii) (s : string) : string :=
  match s with
  | EmptyString => EmptyString
  | String c r => String (f c) (map_chars f r)
  end.

(** [s.lower()] and [s.upper()] on an ASCII string *)
Definition lower (s : string) : string := map_chars lower_char s.
Definition upper (s : string) : string := map_chars upper_char s.

(** [s.title()]: a letter that follows a letter is lower-cased, any other
    letter is upper-cased. *)
Fixpoint title_from (prev_cased : bool) (s : string) : string :=
  match s with
  | EmptyString => EmptyString
  | String c r =>
      String (if prev_cased then lower_char c else upper_char c)
             (title_from (is_alpha c) r)
  end.

Definition title (s : string) : string := title_from false s.

Fixpoint all_chars (p : ascii -> bool) (s : string) : bool :=
  match s with
  | EmptyString => true
  | String c r => p c && all_chars p r
  end.

Fixpoint has_char (p : ascii -> bool) (s : string) : bool :=
  match s with
  | EmptyString => false
  | String c r => p c || has_char p r
  end.

Definition is_empty (s : string) : bool :=
  match s with EmptyString => true | _ => false end.

(** Python truthiness of a string. *)
Definition truthy (s : string) : bool := negb (is_empty s).

(** [s.isalpha()] on an ASCII string: non-empty and letters only. *)
Definition isalpha (s : string) : bool := truthy s && all_chars is_alpha s.

Fixpoint lstrip (s : string) : string :=
  match s with
  | EmptyString => EmptyString
  | String c r => if is_space c then lstrip r else s
  end.

Fixpoint rstrip (s : string) : string :=
  match s with
  | EmptyString => EmptyString
  | String c r =>
      let r' := rstrip r in
      if is_space c && is_empty r' then EmptyString else String c r'
  end.

(** [s.strip()] *)
Definition strip (s : string) : string := rstrip (lstrip s).

(** Maximal runs of characters satisfying [p], left to right; [cur] is the
    run being read. *)
Fixpoint runs_from (p : ascii -> bool) (cur : string) (s : string) : list string :=
  match s with
  | EmptyString => if is_empty cur then [] else [cur]
  | String c r =>
      if p c then runs_from p (cur ++ String c EmptyString) r
      else if is_empty cur then runs_from p EmptyString r
           else cur :: runs_from p EmptyString r
  end.

Definition runs (p : ascii -> bool) (s : string) : list string :=
  runs_from p EmptyString s.

(** [s.split()] with no argument: the maximal runs of non-blank characters. *)
Definition split (s : string) : list string :=
  runs (fun c => negb (is_space c)) s.

(** [s.split(sep)] for a one-character separator: every separator cuts, and
    empty pieces are kept. *)
Fixpoint split_on_from (sep : ascii) (cur : string) (s : string) : list string :=
  match s with
  | EmptyString => [cur]
  | String c r =>
      if Ascii.eqb c sep then cur :: split_on_from sep EmptyString r
      else split_on_from sep (cur ++ String c EmptyString) r
  end.

Definition split_on (sep : ascii) (s : string) : list string :=
  split_on_from sep EmptyString s.

(** [sep.join(parts)] *)
Fixpoint join (sep : string) (parts : list string) : string :=
  match parts with
  | [] => EmptyString
  | [w] => w
  | w :: ws => w ++ sep ++ join sep ws
  end.

(** [sub in s] *)
Fixpoint contains (sub s : string) : bool :=
  prefix sub s ||
  match s with
  | EmptyString => false
  | String _ r => contains sub r
  end.

(** [s.endswith(suf)] *)
Fixpoint endswith (suf s : string) : bool :=
  String.eqb s suf ||
  match s with
  | EmptyString => false
  | String _ r => endswith suf r
  end.

(** [s[:n]] for [n >= 0] *)
Definition slice_to (n : nat) (s : string) : string := substring 0 n s.

(** [x in xs] for a list or set of strings *)
Definition mem (x : string) (xs : list string) : bool :=
  existsb (String.eqb x) xs.

(** [s.isascii()]: every code point is below 128. *)
Definition is_ascii (s : string) : bool := all_chars (fun c => code c <? 128) s.

(** [str(n)] for a natural number *)
Definition str_nat (n : nat) : string := NilEmpty.string_of_uint (Nat.to_uint n).

End PyStr.

(* ===================================================================== *)
(** ** Python values, exceptions and results *)
(* ===================================================================== *)

Module Py.

(** What [json.loads] can return. *)
Inductive pyval : Type :=
| PNone
| PBool (b : bool)
| PInt (z : Z)
| PFloat (q : Q)
| PStr (s : string)
| PList (items : list pyval)
| PDict (entries : list (string * pyval)).

(** The subclasses of [Exception] that the modelled code can meet. *)
Inductive exn : Type :=
| TimeoutError                  (* asyncio.TimeoutError *)
| AttributeError
| TypeError
| LookupError
| JSONDecodeError
| ProviderError (msg : string)  (* any other error of the provider call *)
| ExceptionMsg (msg : string).  (* Exception("...") *)

Inductive result (A : Type) : Type :=
| Ok (a : A)
| Raise (e : exn).

Arguments Ok {A} a.
Arguments Raise {A} e.

Definition bind {A B : Type} (r : result A) (k : A -> result B) : result B :=
  match r with
  | Ok a => k a
  | Raise e => Raise e
  end.

(** [try: body  except Exception as e: handler e] *)
Definition try_except {A : Type} (body : result A) (handler : exn -> result A) : result A :=
  match body with
  | Ok a => Ok a
  | Raise e => handler e
  end.

Definition is_ok {A : Type} (r : result A) : bool :=
  match r with Ok _ => true | Raise _ => false end.

(** [d.get(key)] on a dict kept in insertion order, keys distinct. *)
Fixpoint dict_get (d : list (string * pyval)) (key : string) : option pyval :=
  match d with
  | [] => None
  | (k, v) :: rest => if String.eqb k key then Some v else dict_get rest key
  end.

(** [d.get(key, default)] *)
Definition dict_get_default (d : list (string * pyval)) (key : string) (default : pyval) : pyval :=
  match dict_get d key with
  | Some v => v
  | None => default
  end.

(** [xs[:k]] for a Python integer [k]: a negative bound counts from the end. *)
Definition slice_list {A : Type} (k : Z) (xs : list A) : list A :=
  if (k <? 0)%Z then firstn (List.length xs - Z.to_nat (- k)) xs
  else firstn (Z.to_nat k) xs.

End Py.

Declare Scope py_scope.
Delimit Scope py_scope with py.
Notation "x <- c1 ;; c2" := (Py.bind c1 (fun x => c2))
  (at level 61, c1 at next level, right associativity) : py_scope.

(* ===================================================================== *)
(** ** app/services/llm_service.py *)
(* ===================================================================== *)

Module LLM.
Import PyStr Py.

(** The two prompts; [excerpt] is [text[:2000]], the wording around it is
    configuration. *)
Inductive prompt : Type :=
| SummaryPrompt (excerpt : string)
| MetadataPrompt (excerpt : string).

(** One attempt of [client.chat.completions.create] under [asyncio.wait_for]:
    it delivers the message content or raises. *)
Inductive outcome : Type :=
| Reply (content : string)
| Raises (e : exn).

(** The provider: what the [attempt]-th call (from 0) of a logical request
    with a given prompt does. *)
Definition provider : Type := prompt -> nat -> outcome.

Record LLMService : Type := {
  client : option provider;
  max_retries : nat;
  timeout : Z
}.

(** [LLMService.__init__]: no client without an API key. *)
Definition init (api_key : option string) (openai : provider) : LLMService :=
  {| client := match api_key with
               | Some k => if truthy k then Some openai else None
               | None => None
               end;
     max_retries := 3;
     timeout := 30 |}.

(** What a logical request does besides computing: provider calls and
    sleeps, in order. *)
Inductive event : Type :=
| ECall (attempt : nat)
| ESleep (seconds : Z).

Definition trace : Type := list event.

(** The canonical metadata [{"title": .., "topics": .., "sentiment": ..}]. *)
Record metadata : Type := {
  title : option string;
  topics : list string;
  sentiment : string
}.

(** The dict that a [metadata] record stands for. *)
Definition to_dict (m : metadata) : pyval :=
  PDict [ ("title", match title m with Some s => PStr s | None => PNone end);
          ("topics", PList (map PStr (topics m)));
          ("sentiment", PStr (sentiment m)) ].

(** The body of [for attempt in range(max_retries)]; [remaining] counts the
    iterations left.  A loop that runs out returns [None]. *)
Fixpoint api_loop (script : nat -> outcome) (retries : nat)
         (attempt remaining : nat) : result (option string) * trace :=
  match remaining with
  | O => (Ok None, [])
  | S remaining' =>
      match script attempt with
      | Reply content => (Ok (Some (strip content)), [ECall attempt])
      | Raises TimeoutError =>
          if attempt =? retries - 1
          then (Raise (ExceptionMsg "API call timed out after all retries"), [ECall attempt])
          else let (r, tr) := api_loop script retries (S attempt) remaining' in
               (r, ECall attempt :: tr)
      | Raises e =>
          if attempt =? retries - 1
          then (Raise e, [ECall attempt])
          else let (r, tr) := api_loop script retries (S attempt) remaining' in
               (r, ECall attempt :: ESleep (2 ^ Z.of_nat attempt) :: tr)
      end
  end.

Definition _make_api_call (retries : nat) (openai : provider) (p : prompt)
  : result (option string) * trace :=
  api_loop (openai p) retries 0 retries.

(** [_mock_summary] *)
Definition _mock_summary (text : string) : string :=
  let words := split text in
  if List.length words <=? 20 then text
  else "This text discusses " ++ join " " (firstn 15 words)
       ++ "... [Summary generated offline]".

(** [_mock_metadata] *)
Definition _mock_metadata (text : string) : metadata :=
  {| title := None;
     topics := ["General"; "Content"; "Information"];
     sentiment := "neutral" |}.

(** A method call on the value returned by [_make_api_call]: [None] has no
    string methods. *)
Definition as_str (response : option string) : result string :=
  match response with
  | Some s => Ok s
  | None => Raise AttributeError
  end.

(** [generate_summary] *)
Definition generate_summary (self : LLMService) (text : string) : result string * trace :=
  match client self with
  | None => (Ok (_mock_summary text), [])
  | Some openai =>
      let (call, tr) := _make_api_call (max_retries self) openai
                          (SummaryPrompt (slice_to 2000 text)) in
      (try_except
         (response <- call ;;
          response <- as_str response ;;
          let summary := strip response in
          let sentences := split_on "." summary in
          Ok (if 3 <? List.length sentences
              then (join ". " (firstn 2 sentences) ++ ".")%string
              else summary))%py
         (fun _ => Ok (_mock_summary text)),
       tr)
  end.

Section Validator.

(** Python's [str()] on a value that is not a string. *)
Variable str_of : pyval -> string.

(** [json.loads]; on [None] it raises [TypeError]. *)
Variable json_loads : string -> result pyval.

Definition py_str (v : pyval) : string :=
  match v with
  | PStr s => s
  | _ => str_of v
  end.

(** [while len(cleaned_topics) < 3: cleaned_topics.append(f"Topic {len(cleaned_topics) + 1}")];
    the loop runs at most [fuel] times. *)
Fixpoint pad_topics (fuel : nat) (cleaned_topics : list string) : list string :=
  match fuel with
  | O => cleaned_topics
  | S fuel' =>
      if List.length cleaned_topics <? 3
      then pad_topics fuel' (cleaned_topics ++ [("Topic " ++ str_nat (List.length cleaned_topics + 1))%string])
      else cleaned_topics
  end.

(** [_validate_metadata] *)
Definition _validate_metadata (metadata_in : pyval) : result metadata :=
  match metadata_in with
  | PDict d =>
      let title_in := dict_get_default d "title" PNone in
      let cleaned_title :=
        match title_in with
        | PStr s => if truthy (strip s) then Some (strip s) else None
        | _ => None
        end in
      let topics_in := dict_get_default d "topics" (PList []) in
      let cleaned_topics :=
        match topics_in with
        | PList items =>
            let kept := firstn 3 (filter truthy (map (fun topic => strip (py_str topic)) items)) in
            firstn 3 (pad_topics 3 kept)
        | _ => ["General"; "Information"; "Content"]
        end in
      (sentiment_in <- match dict_get_default d "sentiment" (PStr "neutral") with
                       | PStr s => Ok (lower s)
                       | _ => Raise AttributeError
                       end ;;
       Ok {| title := cleaned_title;
             topics := cleaned_topics;
             sentiment := if mem sentiment_in ["positive"; "negative"; "neutral"]
                          then sentiment_in else "neutral" |})%py
  | _ => Raise AttributeError
  end.

(** [extract_metadata] *)
Definition extract_metadata (self : LLMService) (text : string) : result metadata * trace :=
  match client self with
  | None => (Ok (_mock_metadata text), [])
  | Some openai =>
      let (call, tr) := _make_api_call (max_retries self) openai
                          (MetadataPrompt (slice_to 2000 text)) in
      (try_except
         (response <- call ;;
          match (metadata_in <- match response with
                                | Some s => json_loads s
                                | None => Raise TypeError
                                end ;;
                 _validate_metadata metadata_in)%py with
          | Raise JSONDecodeError => Ok (_mock_metadata text)
          | r => r
          end)%py
         (fun _ => Ok (_mock_metadata text)),
       tr)
  end.

End Validator.

(** *** Vocabulary of the properties *)

Definition valid_sentiment (s : string) : Prop :=
  In s ["positive"; "neutral"; "negative"].

(** A non-empty string with no blank at either end. *)
Definition trimmed (s : string) : Prop := s <> "" /\ strip s = s.

(** The canonical shape of section 4.2. *)
Definition canonical (m : metadata) : Prop :=
  match title m with
  | Some s => trimmed s
  | None => True
  end
  /\ List.length (topics m) = 3
  /\ Forall trimmed (topics m)
  /\ valid_sentiment (sentiment m).

(** In the trace, attempt [i] is followed by a sleep of [2^i] seconds. *)
Definition backoff_after (i : nat) (tr : trace) : Prop :=
  exists before after,
    tr = (before ++ ECall i :: ESleep (2 ^ Z.of_nat i) :: after)%list.

(** In the trace, attempt [i] is followed at once by the next attempt. *)
Definition immediate_retry_after (i : nat) (tr : trace) : Prop :=
  exists before after,
    tr = (before ++ ECall i :: ECall (S i) :: after)%list.

(** *** Sample providers *)

Definition timeout_then_reply : provider :=
  fun _ attempt =>
    match attempt with
    | 0 => Raises TimeoutError
    | _ => Reply "ok"
    end.

Definition error_then_reply : provider :=
  fun _ attempt =>
    match attempt with
    | 0 => Raises (ProviderError "connection reset")
    | _ => Reply "ok"
    end.

Definition always_down : provider :=
  fun _ _ => Raises (ProviderError "connection refused").

(** A renderer for [str()] that is right on [None], booleans and integers
    and abbreviates numbers with a fraction and containers. *)
Definition str_sample (v : pyval) : string :=
  match v with
  | PNone => "None"
  | PBool true => "True"
  | PBool false => "False"
  | PInt z => NilEmpty.string_of_int (Z.to_int z)
  | PFloat _ => "0.0"
  | PStr s => s
  | PList _ => "[...]"
  | PDict _ => "{...}"
  end.

Definition sample_metadata : metadata :=
  {| title := Some "Quarterly report";
     topics := ["sales"; "costs"; "outlook"];
     sentiment := "positive" |}.

(** A service with no API key, and one with a key and a provider that is
    down. *)
Definition offline_service : LLMService := init None always_down.
Definition failing_service : LLMService := init (Some "sk-test") always_down.

Definition long_text : string :=
  "one two three four five six seven eight nine ten eleven twelve thirteen fourteen fifteen sixteen seventeen eighteen nineteen twenty twentyone".

(** A decoder that knows three documents. *)
Definition json_sample (s : string) : result pyval :=
  if String.eqb s "null" then Ok PNone
  else if String.eqb s "{}" then Ok (PDict [])
  else if String.eqb s "[]" then Ok (PList [])
  else Raise JSONDecodeError.

(** *** Measures of a trace *)

(** The number of provider calls in a trace. *)
Fixpoint calls (tr : trace) : nat :=
  match tr with
  | [] => 0
  | ECall _ :: rest => S (calls rest)
  | ESleep _ :: rest => calls rest
  end.

(** The seconds slept in a trace, all sleeps together. *)
Fixpoint slept (tr : trace) : Z :=
  match tr with
  | [] => 0%Z
  | ECall _ :: rest => slept rest
  | ESleep seconds :: rest => (seconds + slept rest)%Z
  end.

(** What the retry loop raises when attempt [retries - 1] raises [e]. *)
Definition final_error (e : exn) : exn :=
  match e with
  | TimeoutError => ExceptionMsg "API call timed out after all retries"
  | _ => e
  end.

(** The sentiment entry of a dict is a string, or there is none. *)
Definition sentiment_is_text (d : list (string * pyval)) : Prop :=
  match dict_get d "sentiment" with
  | None => True
  | Some (PStr _) => True
  | Some _ => False
  end.

(** The placeholder for position [n] (from 1). *)
Definition placeholder (n : nat) : string := "Topic " ++ str_nat n.

(** A reply with one usable topic among blanks, and one with a number in
    it. *)
Definition sparse_reply : list (string * pyval) :=
  [("title", PStr "  Weekly digest ");
   ("topics", PList [PStr "  "; PStr " markets "; PStr ""]);
   ("sentiment", PStr "NEGATIVE")].

(** The trace of a loop in which every attempt from [attempt] on fails with
    an error that is no timeout: a call, a sleep of [2^attempt] seconds, the
    next call, and so on, with no sleep after the last call. *)
Fixpoint backoff_schedule (attempt remaining : nat) : trace :=
  match remaining with
  | O => []
  | S O => [ECall attempt]
  | S remaining' =>
      ECall attempt :: ESleep (2 ^ Z.of_nat attempt)
        :: backoff_schedule (S attempt) remaining'
  end.

(** More sample providers. *)
Definition always_timing_out : provider := fun _ _ => Raises TimeoutError.

Definition wordy_provider : provider :=
  fun _ _ => Reply "  First point. Second point. Third point. Fourth point.  ".

Definition wordy_service : LLMService := init (Some "sk-test") wordy_provider.

End LLM.

(* ===================================================================== *)
(** ** app/services/text_processor.py *)
(* ===================================================================== *)

Module TextProc.
Import PyStr Py.

(** The built-in stop words used when the NLTK corpus is missing. *)
Definition basic_stop_words : list string :=
  ["the"; "a"; "an"; "and"; "or"; "but"; "in"; "on"; "at"; "to"; "for"; "of"; "with"; "by"].

(** [Counter(words)]: distinct words in first-seen order with their counts. *)
Fixpoint count_incr (word : string) (counts : list (string * Z)) : list (string * Z) :=
  match counts with
  | [] => [(word, 1%Z)]
  | (w, n) :: rest =>
      if String.eqb w word then (w, (n + 1)%Z) :: rest
      else (w, n) :: count_incr word rest
  end.

Definition Counter (words : list string) : list (string * Z) :=
  fold_left (fun counts word => count_incr word counts) words [].

(** Stable sort by descending second component, as
    [sorted(items, key=lambda x: x[1], reverse=True)]: among equal keys the
    earlier item stays first. *)
Fixpoint insert_desc (x : string * Z) (sorted : list (string * Z)) : list (string * Z) :=
  match sorted with
  | [] => [x]
  | y :: ys => if (snd x <? snd y)%Z then y :: insert_desc x ys
               else x :: y :: ys
  end.

Definition sort_desc (items : list (string * Z)) : list (string * Z) :=
  fold_right insert_desc [] items.

(** [Counter.most_common(n)], that is [heapq.nlargest(n, items, key=count)]:
    the [n] largest in sorted order, nothing for [n <= 0]. *)
Definition most_common (n : Z) (counts : list (string * Z)) : list (string * Z) :=
  firstn (Z.to_nat n) (sort_desc counts).

(** [word.endswith(('ing', 'ed', 'er', 'ly'))] *)
Definition verb_ending (word : string) : bool :=
  existsb (fun suf => endswith suf word) ["ing"; "ed"; "er"; "ly"].

(** [re.findall(r'\b\w+\b', text)]: the maximal runs of word characters. *)
Definition findall_words (text : string) : list string := runs is_word text.

(** [re.findall(r'\b[a-zA-Z]{3,}\b', text)]: both [\b] sit next to a letter,
    so a match is a maximal run of word characters that consists of at least
    three letters and nothing else; a run with a digit or an underscore in it
    yields no match. *)
Definition findall_alpha3 (text : string) : list string :=
  filter (fun w => all_chars is_alpha w && (3 <=? String.length w)) (runs is_word text).

Section Extractor.

(** [self.stop_words] *)
Variable stop_words : list string.

(** NLTK's [word_tokenize] and [pos_tag]; either may raise. *)
Variable word_tokenize : string -> result (list string).
Variable pos_tag : list string -> result (list (string * string)).

(** The score of one distinct word in [_extract_with_regex]; [text] is the
    variable [text] at that point of the function. *)
Definition word_score (text : string) (word : string) (count : Z) : Z :=
  let score := count in
  let score := if 4 <? String.length word then (score + 1)%Z else score in
  let score := if verb_ending word then (score - 1)%Z else score in
  let score := if contains (title word) text || contains (upper word) text
               then (score + 1)%Z else score in
  score.

(** The list [scored_words] before sorting. *)
Definition scored_words (text : string) : list (string * Z) :=
  let text := lower text in
  let words := findall_alpha3 text in
  let filtered_words := filter (fun word => negb (mem word stop_words)) words in
  map (fun wc => (fst wc, word_score text (fst wc) (snd wc))) (Counter filtered_words).

(** [_extract_with_regex] *)
Definition _extract_with_regex (text : string) (top_k : Z) : list string :=
  let text := lower text in
  let words := findall_alpha3 text in
  let filtered_words := filter (fun word => negb (mem word stop_words)) words in
  match filtered_words with
  | [] => []
  | _ =>
      let word_counts := Counter filtered_words in
      let scored := map (fun wc => (fst wc, word_score text (fst wc) (snd wc))) word_counts in
      map fst (slice_list top_k (sort_desc scored))
  end.

(** [_extract_with_nltk] *)
Definition _extract_with_nltk (text : string) (top_k : Z) : result (list string) :=
  (tokens <- match word_tokenize (lower text) with
             | Raise LookupError => Ok (findall_words (lower text))
             | r => r
             end ;;
   let filtered_tokens :=
     filter (fun token => negb (mem token stop_words)
                          && (2 <? String.length token)
                          && isalpha token) tokens in
   let nouns :=
     match pos_tag filtered_tokens with
     | Ok pos_tags =>
         map fst (filter (fun wp => prefix "NN" (snd wp)) pos_tags)
     | Raise _ => filtered_tokens
     end in
   match nouns with
   | [] => Ok []
   | _ => Ok (map fst (most_common top_k (Counter nouns)))
   end)%py.

(** [extract_keywords] *)
Definition extract_keywords (text : string) (top_k : Z) : list string :=
  if negb (truthy text) || negb (truthy (strip text)) then []
  else match _extract_with_nltk text top_k with
       | Ok keywords => keywords
       | Raise _ => _extract_with_regex text top_k
       end.

End Extractor.

(** What every keyword has to be: lower-case letters only, at least three
    of them, and no stop word. *)
Definition keyword_ok (stop_words : list string) (w : string) : Prop :=
  all_chars is_lower w = true /\ 3 <= String.length w /\ mem w stop_words = false.

(** The score of a word without the bonus for capitalisation. *)
Definition base_score (word : string) (count : Z) : Z :=
  let length_bonus := if 4 <? String.length word then 1%Z else 0%Z in
  let ending_penalty := if verb_ending word then 1%Z else 0%Z in
  (count + length_bonus - ending_penalty)%Z.

(** A tokenizer and a tagger to run the extractor with: blank-separated
    tokens, every token a noun. *)
Definition blank_tokenize (s : string) : result (list string) := Ok (split s).

Definition all_nouns (tokens : list string) : result (list (string * string)) :=
  Ok (map (fun t => (t, "NN")) tokens).

(** NLTK without its data files. *)
Definition no_tokenizer (s : string) : result (list string) := Raise LookupError.

Definition no_tagger (tokens : list string) : result (list (string * string)) :=
  Raise LookupError.

(** A tokenizer that raises something other than [LookupError]: the error
    leaves [_extract_with_nltk] and [extract_keywords] turns to the regex
    tier. *)
Definition broken_tokenizer (s : string) : result (list string) := Raise TypeError.

Definition fallback_marker : string := "[Summary generated offline]".

(** [min(a, b)] and [max(a, b)] on floats: the second argument wins only
    when it is strictly smaller (larger). *)
Definition qmin (a b : Q) : Q := if Qle_bool a b then a else b.
Definition qmax (a b : Q) : Q := if Qle_bool b a then a else b.

(** [calculate_confidence_score] *)
Definition calculate_confidence_score (text summary : string) (keywords : list string) : Q :=
  let score := 0%Q in
  let score := if truthy text && truthy summary then (score + (3 # 10))%Q else score in
  let text_length := List.length (split text) in
  let score := if 50 <? text_length then (score + (2 # 10))%Q
               else if 20 <? text_length then (score + (1 # 10))%Q
               else score in
  let score := match keywords with
               | [] => score
               | _ => (score + (2 # 10) * (inject_Z (Z.of_nat (List.length keywords)) / 3))%Q
               end in
  let score := if truthy summary && negb (endswith fallback_marker summary)
               then (score + (3 # 10))%Q
               else (score + (1 # 10))%Q in
  qmin 1 (qmax 0 score).

(** The value of [score] before the last term is added, for a summary that
    is not empty. *)
Definition score_before_quality (text : string) (keywords : list string) : Q :=
  let score := 0%Q in
  let score := if truthy text then (score + (3 # 10))%Q else score in
  let text_length := List.length (split text) in
  let score := if 50 <? text_length then (score + (2 # 10))%Q
               else if 20 <? text_length then (score + (1 # 10))%Q
               else score in
  match keywords with
  | [] => score
  | _ => (score + (2 # 10) * (inject_Z (Z.of_nat (List.length keywords)) / 3))%Q
  end.

(** The distinct words of a list in the order of their first occurrence. *)
Definition first_seen (words : list string) : list string :=
  fold_left (fun seen word => if mem word seen then seen else (seen ++ [word])%list)
            words [].

(** [counts[word]] for a [Counter]: 0 for a word that is not in it. *)
Fixpoint count_of (counts : list (string * Z)) (word : string) : Z :=
  match counts with
  | [] => 0%Z
  | (w, n) :: rest => if String.eqb w word then n else count_of rest word
  end.

Section Nouns.

Variable stop_words : list string.
Variable word_tokenize : string -> result (list string).
Variable pos_tag : list string -> result (list (string * string)).

(** The list [nouns] of [_extract_with_nltk], before it is counted. *)
Definition nltk_nouns (text : string) : result (list string) :=
  (tokens <- match word_tokenize (lower text) with
             | Raise LookupError => Ok (findall_words (lower text))
             | r => r
             end ;;
   let filtered_tokens :=
     filter (fun token => negb (mem token stop_words)
                          && (2 <? String.length token)
                          && isalpha token) tokens in
   Ok match pos_tag filtered_tokens with
      | Ok pos_tags =>
          map fst (filter (fun wp => prefix "NN" (snd wp)) pos_tags)
      | Raise _ => filtered_tokens
      end)%py.

End Nouns.

(** The order of [sort_desc]: the earlier item has the higher or the same
    second component. *)
Definition by_score_desc (p q : string * Z) : Prop := (snd q <= snd p)%Z.

(** The characters that the pattern [[^\w\s\.\,\!\?\;\:\-\(\)]] leaves
    alone: word characters, blanks and the listed punctuation. *)
Definition kept_char (c : ascii) : bool :=
  is_word c || is_space c
  || existsb (Ascii.eqb c) ["."; ","; "!"; "?"; ";"; ":"; "-"; "("; ")"]%char.

(** [clean_text] *)
Definition clean_text (text : string) : string :=
  if negb (truthy text) then EmptyString
  else
    let text := join " " (split text) in
    let text := map_chars (fun c => if kept_char c then c else " "%char) text in
    strip text.

(** Sample keyword lists and summaries. *)
Definition nine_keywords : list string :=
  ["a"; "b"; "c"; "d"; "e"; "f"; "g"; "h"; "i"].

Definition marked_summary : string := "Markets rallied... [Summary generated offline]".
Definition plain_summary : string := "Markets rallied.".

End TextProc.

(* ===================================================================== *)
(** ** app/main.py: the score of a search result *)
(* ===================================================================== *)

Module Search.
Import PyStr Py.

(** A stored row ([database.Analysis]); the JSON columns are nullable. *)
Record Analysis : Type := {
  id : Z;
  text : string;
  summary : string;
  title : option string;
  topics : option (list string);
  sentiment : string;
  keywords : option (list string);
  created_at : Z
}.

Record SearchResponse : Type := {
  r_id : Z;
  r_summary : string;
  r_title : option string;
  r_topics : list string;
  r_sentiment : string;
  r_keywords : list string;
  r_created_at : Z;
  confidence_score : Q
}.

(** Truthiness of an optional query parameter and of a nullable list. *)
Definition given (param : option string) : bool :=
  match param with
  | Some s => truthy s
  | None => false
  end.

Definition nonempty (column : option (list string)) : bool :=
  match column with
  | Some (_ :: _) => true
  | _ => false
  end.

(** [column or []] *)
Definition or_empty (column : option (list string)) : list string :=
  match column with
  | Some l => l
  | None => []
  end.

Definition param_str (param : option string) : string :=
  match param with
  | Some s => s
  | None => EmptyString
  end.

(** [sum(1 for t in items if needle.lower() in t.lower())] *)
Fixpoint matches (needle : string) (items : list string) : Z :=
  match items with
  | [] => 0%Z
  | t :: rest =>
      if contains (lower needle) (lower t) then (1 + matches needle rest)%Z
      else matches needle rest
  end.

(** The body of the loop over [results]. *)
Definition confidence (topic keyword sentiment_param : option string) (analysis : Analysis) : Q :=
  let confidence := (5 # 10)%Q in
  let confidence :=
    if given topic && nonempty (topics analysis)
    then (confidence + inject_Z (matches (param_str topic) (or_empty (topics analysis))) * (2 # 10))%Q
    else confidence in
  let confidence :=
    if given keyword && nonempty (keywords analysis)
    then (confidence + inject_Z (matches (param_str keyword) (or_empty (keywords analysis))) * (15 # 100))%Q
    else confidence in
  let confidence :=
    if given sentiment_param && String.eqb (sentiment analysis) (lower (param_str sentiment_param))
    then (confidence + (3 # 10))%Q
    else confidence in
  if Qle_bool confidence 1 then confidence else 1%Q.

Definition respond (topic keyword sentiment_param : option string) (analysis : Analysis) : SearchResponse :=
  {| r_id := id analysis;
     r_summary := summary analysis;
     r_title := title analysis;
     r_topics := or_empty (topics analysis);
     r_sentiment := sentiment analysis;
     r_keywords := or_empty (keywords analysis);
     r_created_at := created_at analysis;
     confidence_score := confidence topic keyword sentiment_param analysis |}.

Inductive http (A : Type) : Type :=
| Status200 (body : A)
| HTTPException (status : Z) (detail : string).

Arguments Status200 {A} body.
Arguments HTTPException {A} status detail.

(** The parameters of the endpoint [search_analyses], in the order of its
    signature; each has a default. *)
Definition endpoint_parameters : list string :=
  ["topic"; "keyword"; "sentiment"; "limit"; "db"].

(** Python's binding of the arguments of a call to a function without
    [*args] and [**kwargs] whose parameters all have defaults:
    [TypeError] for too many positional arguments, for a keyword that names
    no parameter, and for a keyword that names a parameter already given by
    position. *)
Definition bind_arguments (parameters : list string) (positional : nat)
           (keywords : list string) : result unit :=
  if List.length parameters <? positional then Raise TypeError
  else if existsb (fun k => negb (mem k parameters)) keywords then Raise TypeError
  else if existsb (fun k => mem k (firstn positional parameters)) keywords
       then Raise TypeError
  else Ok tt.

(** The call of line 151,
    [search_analyses(db, topic=topic, keyword=keyword, sentiment=sentiment, limit=limit)].
    When it runs, the global name [search_analyses] is this endpoint: its
    [def] rebinds the name imported from [crud], and the route decorator
    returns the function as it is.  So [db] goes to the first parameter,
    [topic], which the call gives again by keyword.  Were the arguments
    bound, the call would give a coroutine, which the loop over [results]
    cannot iterate. *)
Definition call_search_analyses : result (list Analysis) :=
  (_ <- bind_arguments endpoint_parameters 1
          ["topic"; "keyword"; "sentiment"; "limit"] ;;
   Raise TypeError)%py.

(** The endpoint [GET /search]. *)
Definition search_analyses (topic keyword sentiment_param : option string) (limit : Z)
  : http (list SearchResponse) :=
  if negb (given topic) && negb (given keyword) && negb (given sentiment_param)
  then HTTPException 400 "At least one search parameter (topic, keyword, or sentiment) is required"
  else
    match (results <- call_search_analyses ;;
           Ok (map (respond topic keyword sentiment_param) results))%py with
    | Ok search_results => Status200 search_results
    | Raise _ => HTTPException 500 "Internal server error during search"
    end.

(** The score as the specification words it. *)
Definition spec_score (topic keyword sentiment_param : option string) (analysis : Analysis) : Q :=
  let total :=
    ((5 # 10)
     + (if given topic
        then (2 # 10) * inject_Z (Z.of_nat (List.length
               (filter (fun t => contains (lower (param_str topic)) (lower t))
                       (or_empty (topics analysis)))))
        else 0)
     + (if given keyword
        then (15 # 100) * inject_Z (Z.of_nat (List.length
               (filter (fun k => contains (lower (param_str keyword)) (lower k))
                       (or_empty (keywords analysis)))))
        else 0)
     + (if given sentiment_param
           && String.eqb (sentiment analysis) (lower (param_str sentiment_param))
        then (3 # 10) else 0))%Q in
  if Qle_bool 1 total then 1%Q else total.

(** Sample rows. *)
Definition climate_row : Analysis :=
  {| id := 2;
     text := "Climate change poses significant challenges to global agriculture and food security.";
     summary := "Climate change threatens agriculture.";
     title := Some "Climate and food";
     topics := Some ["Climate change"; "Agriculture"; "Food security"];
     sentiment := "negative";
     keywords := Some ["climate"; "change"; "agriculture"];
     created_at := 1700000002 |}.

Definition bare_row : Analysis :=
  {| id := 1;
     text := "Short.";
     summary := "Short.";
     title := None;
     topics := None;
     sentiment := "neutral";
     keywords := None;
     created_at := 1700000001 |}.

End Search.

(* ===================================================================== *)
(** ** app/main.py: the analysis endpoint *)
(* ===================================================================== *)

Module Main.
Import PyStr Py.

(** The dict [analysis_result] handed to [create_analysis]. *)
Record AnalysisResult : Type := {
  res_summary : string;
  res_title : option string;
  res_topics : list string;
  res_sentiment : string;
  res_keywords : list string
}.

(** The fields of the response model. *)
Record AnalysisResponse : Type := {
  resp_id : Z;
  resp_text : string;
  resp_summary : string;
  resp_title : option string;
  resp_topics : list string;
  resp_sentiment : string;
  resp_keywords : list string;
  resp_created_at : Z
}.

Section Endpoint.

(** The environment of a request: the API key, the provider behind it,
    [str()], [json.loads], the stop words and NLTK. *)
Variable api_key : option string.
Variable openai : LLM.provider.
Variable str_of : pyval -> string.
Variable json_loads : string -> result pyval.
Variable stop_words : list string.
Variable word_tokenize : string -> result (list string).
Variable pos_tag : list string -> result (list (string * string)).

(** [crud.create_analysis] on the session of the request: it returns the
    stored row, with its [id] and [created_at], or raises. *)
Variable create_analysis : string -> AnalysisResult -> result Search.Analysis.

(** The endpoint [POST /analyze]. *)
Definition analyze_text (request_text : string) : Search.http AnalysisResponse :=
  if negb (truthy request_text) || negb (truthy (strip request_text))
  then Search.HTTPException 400 "Empty text input provided"
  else
    let text := strip request_text in
    let llm_service := LLM.init api_key openai in
    match (summary <- fst (LLM.generate_summary llm_service text) ;;
           metadata <- fst (LLM.extract_metadata str_of json_loads llm_service text) ;;
           Ok (summary, metadata))%py with
    | Raise _ =>
        Search.HTTPException 503
          "LLM service temporarily unavailable. Please try again later."
    | Ok (summary, metadata) =>
        let keywords :=
          TextProc.extract_keywords stop_words word_tokenize pos_tag text 3 in
        let analysis_result :=
          {| res_summary := summary;
             res_title := LLM.title metadata;
             res_topics := LLM.topics metadata;
             res_sentiment := LLM.sentiment metadata;
             res_keywords := keywords |} in
        match create_analysis text analysis_result with
        | Raise _ =>
            Search.HTTPException 500 "Internal server error during text analysis"
        | Ok db_analysis =>
            Search.Status200
              {| resp_id := Search.id db_analysis;
                 resp_text := text;
                 resp_summary := summary;
                 resp_title := LLM.title metadata;
                 resp_topics := LLM.topics metadata;
                 resp_sentiment := LLM.sentiment metadata;
                 resp_keywords := keywords;
                 resp_created_at := Search.created_at db_analysis |}
        end
    end.

End Endpoint.

(** A store that keeps what it is given, and one that is down. *)
Definition sample_store (text : string) (r : AnalysisResult) : result Search.Analysis :=
  Ok {| Search.id := 1;
        Search.text := text;
        Search.summary := res_summary r;
        Search.title := res_title r;
        Search.topics := Some (res_topics r);
        Search.sentiment := res_sentiment r;
        Search.keywords := Some (res_keywords r);
        Search.created_at := 1700000000 |}.

Definition broken_store (text : string) (r : AnalysisResult) : result Search.Analysis :=
  Raise (ProviderError "database is locked").

End Main.

(* ===================================================================== *)
(** * Properties *)
(* ===================================================================== *)

(** ** Facts about the string primitives *)

Module PyStrFacts.
Import PyStr.

Example lower_ex : lower "Hello World 42" = "hello world 42".
Proof. reflexivity. Qed.

Example title_ex : title "alpha beta-gamma" = "Alpha Beta-Gamma".
Proof. reflexivity. Qed.

Example strip_ex : strip "  a b  " = "a b".
Proof. reflexivity. Qed.

Example split_ex : split "  the cat   sat " = ["the"; "cat"; "sat"].
Proof. reflexivity. Qed.

Example split_on_ex : split_on "." "a.b..c." = ["a"; "b"; ""; "c"; ""].
Proof. reflexivity. Qed.

Example join_ex : join ". " ["a"; "b"] = "a. b".
Proof. reflexivity. Qed.

Example contains_ex :
  contains "lo w" "hello world" = true /\ contains "Lo" "hello" = false.
Proof. split; reflexivity. Qed.

Example endswith_ex :
  endswith "ing" "running" = true /\ endswith "ing" "ring road" = false.
Proof. split; reflexivity. Qed.

Example str_nat_ex : str_nat 12 = "12".
Proof. reflexivity. Qed.

Ltac by_cases_on_char c := destruct c as [[] [] [] [] [] [] [] []]; reflexivity.

Lemma lower_char_not_upper (c : ascii) : is_upper (lower_char c) = false.
Proof. by_cases_on_char c. Qed.

Lemma upper_char_of_alpha (c : ascii) :
  is_alpha c = true -> is_upper (upper_char c) = true.
Proof. destruct c as [[] [] [] [] [] [] [] []]; intros H; try reflexivity; discriminate H. Qed.

Lemma alpha_not_upper_is_lower (c : ascii) :
  is_alpha c = true -> is_upper c = false -> is_lower c = true.
Proof. unfold is_alpha. intros H1 H2. rewrite H2 in H1. exact H1. Qed.

Lemma lower_is_alpha (c : ascii) : is_lower c = true -> is_alpha c = true.
Proof. unfold is_alpha. intros ->. apply orb_true_r. Qed.

Lemma is_empty_true (s : string) : is_empty s = true <-> s = "".
Proof. destruct s; simpl; split; intros H; (reflexivity || discriminate H). Qed.

Lemma truthy_true (s : string) : truthy s = true <-> s <> "".
Proof.
  destruct s; simpl; split; intros H; try discriminate; try reflexivity.
  now contradiction H.
Qed.

(** *** Lower-casing leaves no capital letter *)

Lemma lower_no_upper (s : string) : has_char is_upper (lower s) = false.
Proof.
  induction s as [|c r IH]; simpl.
  - reflexivity.
  - rewrite lower_char_not_upper. exact IH.
Qed.

Lemma has_char_false_all (p : ascii -> bool) (s : string) :
  has_char p s = false <-> all_chars (fun c => negb (p c)) s = true.
Proof.
  induction s as [|c r IH]; simpl.
  - split; reflexivity.
  - rewrite orb_false_iff, andb_true_iff, negb_true_iff, IH. reflexivity.
Qed.

Lemma all_chars_app (p : ascii -> bool) (s t : string) :
  all_chars p (s ++ t) = all_chars p s && all_chars p t.
Proof.
  induction s as [|c r IH]; simpl.
  - reflexivity.
  - rewrite IH. apply andb_assoc.
Qed.

Lemma all_chars_and (p q : ascii -> bool) (s : string) :
  all_chars p s = true -> all_chars q s = true ->
  all_chars (fun c => p c && q c) s = true.
Proof.
  induction s as [|c r IH]; simpl; [reflexivity|].
  rewrite !andb_true_iff. intros [Hp Hr] [Hq Hr']. auto.
Qed.

Lemma all_chars_impl (p q : ascii -> bool) (s : string) :
  (forall c, p c = true -> q c = true) ->
  all_chars p s = true -> all_chars q s = true.
Proof.
  intros Hpq. induction s as [|c r IH]; simpl; [reflexivity|].
  rewrite !andb_true_iff. intros [Hp Hr]. auto.
Qed.

Lemma alpha_no_upper_all_lower (s : string) :
  all_chars is_alpha s = true ->
  all_chars (fun c => negb (is_upper c)) s = true ->
  all_chars is_lower s = true.
Proof.
  intros Ha Hu.
  apply (all_chars_impl (fun c => is_alpha c && negb (is_upper c))).
  - intros c Hc. apply andb_true_iff in Hc as [H1 H2].
    apply alpha_not_upper_is_lower; [exact H1 | now apply negb_true_iff].
  - now apply all_chars_and.
Qed.

(** *** Substring search only finds characters that are there *)

Lemma prefix_has_char (p : ascii -> bool) (sub s : string) :
  prefix sub s = true -> has_char p sub = true -> has_char p s = true.
Proof.
  revert s. induction sub as [|c r IH]; intros s Hpre Hc.
  - discriminate Hc.
  - destruct s as [|d t]; [discriminate Hpre|].
    simpl in Hpre. destruct (ascii_dec c d) as [->|Hne]; [|discriminate Hpre].
    simpl in *. destruct (p d); [reflexivity|]. simpl in *. now apply IH.
Qed.

Lemma contains_has_char (p : ascii -> bool) (sub s : string) :
  contains sub s = true -> has_char p sub = true -> has_char p s = true.
Proof.
  intros Hin Hc. induction s as [|d t IH].
  - simpl in Hin. rewrite orb_false_r in Hin. now apply (prefix_has_char p sub).
  - simpl in Hin. apply orb_true_iff in Hin as [Hpre|Hrest].
    + now apply (prefix_has_char p sub).
    + simpl. rewrite (IH Hrest). apply orb_true_r.
Qed.

Lemma title_has_upper (w : string) :
  has_char is_alpha w = true -> has_char is_upper (title_from false w) = true.
Proof.
  induction w as [|c r IH]; simpl; [discriminate|].
  destruct (is_alpha c) eqn:Hc; simpl.
  - intros _. now rewrite (upper_char_of_alpha c Hc).
  - intros Hr. rewrite (IH Hr). apply orb_true_r.
Qed.

Lemma upper_has_upper (w : string) :
  has_char is_alpha w = true -> has_char is_upper (upper w) = true.
Proof.
  induction w as [|c r IH]; simpl; [discriminate|].
  destruct (is_alpha c) eqn:Hc; simpl.
  - intros _. now rewrite (upper_char_of_alpha c Hc).
  - intros Hr. unfold upper in IH. rewrite (IH Hr). apply orb_true_r.
Qed.

Lemma cased_forms_absent_from_lowered (text word : string) :
  has_char is_alpha word = true ->
  contains (title word) (lower text) || contains (upper word) (lower text) = false.
Proof.
  intros Hw. apply orb_false_iff. split.
  - destruct (contains (title word) (lower text)) eqn:E; [|reflexivity].
    pose proof (contains_has_char is_upper _ _ E (title_has_upper word Hw)) as H.
    now rewrite lower_no_upper in H.
  - destruct (contains (upper word) (lower text)) eqn:E; [|reflexivity].
    pose proof (contains_has_char is_upper _ _ E (upper_has_upper word Hw)) as H.
    now rewrite lower_no_upper in H.
Qed.

(** *** Stripping *)

Lemma rstrip_idem (s : string) : rstrip (rstrip s) = rstrip s.
Proof.
  induction s as [|c r IH]; simpl; [reflexivity|].
  destruct (is_space c && is_empty (rstrip r)) eqn:E; simpl; [reflexivity|].
  rewrite IH, E. reflexivity.
Qed.

Lemma lstrip_head (s : string) :
  match lstrip s with
  | EmptyString => True
  | String c _ => is_space c = false
  end.
Proof.
  induction s as [|c r IH]; simpl; [exact I|].
  destruct (is_space c) eqn:E; [exact IH | exact E].
Qed.

Lemma lstrip_rstrip_headed (s : string) :
  match s with
  | EmptyString => True
  | String c _ => is_space c = false
  end ->
  lstrip (rstrip s) = rstrip s.
Proof.
  destruct s as [|c r]; simpl; [reflexivity|].
  intros Hc. rewrite Hc. simpl. now rewrite Hc.
Qed.

Lemma strip_idem (s : string) : strip (strip s) = strip s.
Proof.
  unfold strip.
  rewrite (lstrip_rstrip_headed (lstrip s) (lstrip_head s)).
  apply rstrip_idem.
Qed.

(** *** Runs *)

Lemma runs_from_all (p q : ascii -> bool) (s cur : string) :
  all_chars q cur = true -> all_chars q s = true ->
  Forall (fun w => all_chars q w = true) (runs_from p cur s).
Proof.
  revert cur. induction s as [|c r IH]; intros cur Hcur Hs; simpl.
  - destruct (is_empty cur); constructor; [exact Hcur | constructor].
  - simpl in Hs. apply andb_true_iff in Hs as [Hc Hr].
    destruct (p c).
    + apply IH; [|exact Hr]. rewrite all_chars_app, Hcur. simpl. now rewrite Hc.
    + destruct (is_empty cur).
      * now apply IH.
      * constructor; [exact Hcur | now apply IH].
Qed.

Lemma runs_all (p q : ascii -> bool) (s : string) :
  all_chars q s = true -> Forall (fun w => all_chars q w = true) (runs p s).
Proof. intros H. now apply runs_from_all. Qed.

End PyStrFacts.

(* ===================================================================== *)
(** ** The retry loop *)
(* ===================================================================== *)

Module RetryFacts.
Import PyStr Py LLM.

Example make_api_call_error_then_reply :
  _make_api_call 3 error_then_reply (SummaryPrompt "x")
  = (Ok (Some "ok"), [ECall 0; ESleep 1; ECall 1]).
Proof. reflexivity. Qed.

Example make_api_call_always_down :
  _make_api_call 3 always_down (SummaryPrompt "x")
  = (Raise (ProviderError "connection refused"),
     [ECall 0; ESleep 1; ECall 1; ESleep 2; ECall 2]).
Proof. reflexivity. Qed.

(** The loop makes at most [remaining] calls. *)
Lemma api_loop_calls_bounded (script : nat -> outcome) (retries : nat) :
  forall remaining attempt,
    List.length (filter (fun ev => match ev with ECall _ => true | _ => false end)
                        (snd (api_loop script retries attempt remaining)))
    <= remaining.
Proof.
  induction remaining as [|n IH]; intros attempt; simpl.
  - lia.
  - destruct (script attempt) as [content|e]; simpl; [lia|].
    specialize (IH (S attempt)).
    destruct e; destruct (attempt =? retries - 1); simpl; try lia;
      destruct (api_loop script retries (S attempt) n) as [r tr]; simpl in *; lia.
Qed.


(** The prefix of the trace up to attempt [i], when all attempts before [i]
    fail: the loop reaches attempt [i]. *)
Lemma api_loop_reaches (script : nat -> outcome) (retries : nat) (i : nat) :
  forall remaining attempt,
    attempt <= i -> i < attempt + remaining -> i < retries - 1 ->
    (forall j, attempt <= j -> j < i -> exists e, script j = Raises e) ->
    exists before,
      snd (api_loop script retries attempt remaining)
      = (before ++ snd (api_loop script retries i (attempt + remaining - i)))%list.
Proof.
  induction remaining as [|n IH]; intros attempt Hle Hlt Hlast Hfail; [lia|].
  destruct (Nat.eq_dec attempt i) as [->|Hne].
  - exists []. replace (i + S n - i) with (S n) by lia. reflexivity.
  - destruct (Hfail attempt ltac:(lia) ltac:(lia)) as [e He].
    destruct (IH (S attempt) ltac:(lia) ltac:(lia) Hlast) as [before Hbefore].
    { intros j Hj1 Hj2. apply Hfail; lia. }
    replace (S attempt + n - i) with (attempt + S n - i) in Hbefore by lia.
    simpl. rewrite He.
    destruct (Nat.eqb_spec attempt (retries - 1)) as [Heq|_]; [lia|].
    destruct (api_loop script retries (S attempt) n) as [r tr]. simpl in *.
    destruct e; simpl; rewrite Hbefore;
      first [ now exists (ECall attempt :: before)
            | now exists (ECall attempt :: ESleep (2 ^ Z.of_nat attempt) :: before) ].
Qed.

(** After an error that is not a timeout, the loop sleeps [2^i] seconds
    before the next attempt. *)
Lemma backoff_after_provider_error (openai : provider) (p : prompt) (retries i : nat) (e : exn) :
  i < retries - 1 ->
  (forall j, j < i -> exists e', openai p j = Raises e') ->
  openai p i = Raises e -> e <> TimeoutError ->
  backoff_after i (snd (_make_api_call retries openai p)).
Proof.
  intros Hi Hbefore Hfail Hne. unfold _make_api_call, backoff_after.
  destruct (api_loop_reaches (openai p) retries i retries 0) as [before Hb]; try lia.
  { intros j _ Hj. now apply Hbefore. }
  rewrite Hb. replace (0 + retries - i) with (S (retries - i - 1)) by lia.
  simpl. rewrite Hfail.
  destruct (Nat.eqb_spec i (retries - 1)) as [Heq|_]; [lia|].
  destruct (api_loop (openai p) retries (S i) (retries - i - 1)) as [r tr].
  exists before, tr. destruct e; simpl; congruence.
Qed.

(** After a timeout that is not the last attempt, the next attempt starts
    with no sleep in between. *)
Lemma no_backoff_after_timeout (openai : provider) (p : prompt) (retries i : nat) :
  i < retries - 1 ->
  (forall j, j < i -> exists e', openai p j = Raises e') ->
  openai p i = Raises TimeoutError ->
  immediate_retry_after i (snd (_make_api_call retries openai p)).
Proof.
  intros Hi Hbefore Hfail. unfold _make_api_call, immediate_retry_after.
  destruct (api_loop_reaches (openai p) retries i retries 0) as [before Hb]; try lia.
  { intros j _ Hj. now apply Hbefore. }
  rewrite Hb. replace (0 + retries - i) with (S (S (retries - i - 2))) by lia.
  cbn [api_loop]. rewrite Hfail.
  destruct (Nat.eqb_spec i (retries - 1)) as [Heq|_]; [lia|].
  destruct (openai p (S i)) as [content|e'].
  - exists before, []. reflexivity.
  - destruct (Nat.eqb_spec (S i) (retries - 1)) as [Heq|Hmore].
    + exists before, []. destruct e'; reflexivity.
    + destruct (api_loop (openai p) retries (S (S i)) (retries - i - 2)) as [r tr].
      destruct e'; simpl; eauto.
Qed.

(** C3 (code): a timeout on attempt 0 of 3 is followed at once by attempt 1;
    the trace holds the two calls and no sleep, where the claim asks for a
    sleep of [2^0 = 1] second in between. *)
Theorem timeout_retry_skips_backoff :
  _make_api_call 3 timeout_then_reply (SummaryPrompt "x")
  = (Ok (Some "ok"), [ECall 0; ECall 1])
  /\ ~ backoff_after 0 (snd (_make_api_call 3 timeout_then_reply (SummaryPrompt "x"))).
Proof.
  split; [reflexivity|].
  intros (before & after & H). cbn in H.
  destruct before as [|ev1 [|ev2 [|ev3 rest]]]; cbn in H; discriminate H.
Qed.

End RetryFacts.

(* ===================================================================== *)
(** ** The metadata validator *)
(* ===================================================================== *)

Module ListFacts.

Lemma firstn_In {A : Type} (n : nat) (l : list A) (x : A) :
  In x (firstn n l) -> In x l.
Proof.
  revert l. induction n as [|n IH]; intros [|y l]; simpl; try tauto.
  intros [->|H]; auto.
Qed.

End ListFacts.

Module ValidatorFacts.
Import PyStr Py LLM PyStrFacts ListFacts.

Section WithRuntime.

Variable str_of : pyval -> string.

Local Abbreviation validate := (_validate_metadata str_of).

Example validate_test_metadata_validation :
  validate (PDict [("title", PStr "");
                   ("topics", PList [PStr "topic1"]);
                   ("sentiment", PStr "very_positive")])
  = Ok {| title := None;
          topics := ["topic1"; "Topic 2"; "Topic 3"];
          sentiment := "neutral" |}.
Proof. reflexivity. Qed.

Example validate_missing_fields :
  validate (PDict [])
  = Ok {| title := None;
          topics := ["Topic 1"; "Topic 2"; "Topic 3"];
          sentiment := "neutral" |}.
Proof. reflexivity. Qed.

Example validate_not_a_list :
  validate (PDict [("topics", PStr "a, b, c"); ("sentiment", PStr "Positive")])
  = Ok {| title := None;
          topics := ["General"; "Information"; "Content"];
          sentiment := "positive" |}.
Proof. reflexivity. Qed.

Lemma trimmed_strip (s : string) : truthy (strip s) = true -> trimmed (strip s).
Proof.
  intros H. split; [now apply truthy_true | apply strip_idem].
Qed.

Lemma trimmed_truthy (s : string) : trimmed s -> truthy (strip s) = true.
Proof. intros [Hne Hs]. rewrite Hs. now apply truthy_true. Qed.

(** The kept topics are trimmed, and there are at most three of them. *)
Lemma kept_topics_trimmed (items : list pyval) :
  Forall trimmed (firstn 3 (filter truthy (map (fun topic => strip (py_str str_of topic)) items))).
Proof.
  apply Forall_forall. intros t Ht.
  apply firstn_In in Ht. apply filter_In in Ht as [Ht Hnonempty].
  apply in_map_iff in Ht as (v & <- & _).
  now apply trimmed_strip.
Qed.

Lemma trimmed_placeholder_1 : trimmed "Topic 1".
Proof. split; [discriminate | reflexivity]. Qed.

Lemma trimmed_placeholder_2 : trimmed "Topic 2".
Proof. split; [discriminate | reflexivity]. Qed.

Lemma trimmed_placeholder_3 : trimmed "Topic 3".
Proof. split; [discriminate | reflexivity]. Qed.

(** Padding up to three and cutting at three gives exactly three trimmed
    topics. *)
Lemma padded_topics_canonical (kept : list string) :
  Forall trimmed kept ->
  List.length (firstn 3 (pad_topics 3 kept)) = 3
  /\ Forall trimmed (firstn 3 (pad_topics 3 kept)).
Proof.
  pose proof trimmed_placeholder_1. pose proof trimmed_placeholder_2.
  pose proof trimmed_placeholder_3.
  intros Hkept.
  destruct kept as [|a [|b [|c rest]]]; cbn.
  - split; [reflexivity | repeat (apply Forall_cons; [assumption|]); apply Forall_nil].
  - inversion Hkept; subst. split; [reflexivity | repeat (apply Forall_cons; [assumption|]); apply Forall_nil].
  - inversion Hkept as [|? ? Ha Hk]; subst. inversion Hk; subst.
    split; [reflexivity | repeat (apply Forall_cons; [assumption|]); apply Forall_nil].
  - inversion Hkept as [|? ? Ha Hk]; subst. inversion Hk as [|? ? Hb Hk']; subst.
    inversion Hk'; subst.
    split; [reflexivity | repeat (apply Forall_cons; [assumption|]); apply Forall_nil].
Qed.

Lemma generic_topics_canonical :
  List.length ["General"; "Information"; "Content"] = 3
  /\ Forall trimmed ["General"; "Information"; "Content"].
Proof.
  split; [reflexivity|].
  repeat (apply Forall_cons; [split; [discriminate | reflexivity]|]); apply Forall_nil.
Qed.

Lemma cleaned_sentiment_valid (s : string) :
  valid_sentiment (if mem s ["positive"; "negative"; "neutral"] then s else "neutral").
Proof.
  unfold valid_sentiment, mem. cbn [existsb].
  destruct (String.eqb_spec s "positive") as [->|_]; [cbn; auto|].
  destruct (String.eqb_spec s "negative") as [->|_]; [cbn; auto|].
  destruct (String.eqb_spec s "neutral") as [->|_]; cbn; auto.
Qed.

(** Whatever the validator returns is canonical. *)
Lemma validate_returns_canonical (m : pyval) (c : metadata) :
  validate m = Ok c -> canonical c.
Proof.
  destruct m as [| | | | |items|d]; try discriminate.
  unfold _validate_metadata.
  destruct (dict_get_default d "sentiment" (PStr "neutral")) as [| | | |s| |];
    try discriminate.
  cbn [bind]. intros [= <-]. unfold canonical. cbn [title topics sentiment].
  split; [|split; [|split]].
  - destruct (dict_get_default d "title" PNone); try exact I.
    destruct (truthy (strip s0)) eqn:E; [now apply trimmed_strip | exact I].
  - destruct (dict_get_default d "topics" (PList [])); try apply generic_topics_canonical.
    apply padded_topics_canonical, kept_topics_trimmed.
  - destruct (dict_get_default d "topics" (PList [])); try apply generic_topics_canonical.
    apply padded_topics_canonical, kept_topics_trimmed.
  - apply cleaned_sentiment_valid.
Qed.

(** The validator returns exactly on a dict whose sentiment is a string or
    missing. *)
Lemma validate_returns_iff (m : pyval) :
  (exists c, validate m = Ok c) <->
  (exists d, m = PDict d /\
             exists s, dict_get_default d "sentiment" (PStr "neutral") = PStr s).
Proof.
  split.
  - intros [c H]. destruct m as [| | | | |items|d]; try discriminate.
    exists d. split; [reflexivity|].
    unfold _validate_metadata in H.
    destruct (dict_get_default d "sentiment" (PStr "neutral")); try discriminate.
    eauto.
  - intros (d & -> & s & Hs). unfold _validate_metadata. rewrite Hs. cbn. eauto.
Qed.

(** C4 (code): a dict whose sentiment is JSON [null] makes the validator
    raise [AttributeError] ([None] has no [lower]), where the claim says it
    returns a well-formed structure for a non-string sentiment; the same
    happens for a number. *)
Theorem validate_raises_on_null_sentiment :
  _validate_metadata str_of (PDict [("title", PStr "Quarterly report");
                   ("topics", PList [PStr "sales"; PStr "costs"; PStr "outlook"]);
                   ("sentiment", PNone)])
  = Raise AttributeError
  /\ _validate_metadata str_of (PDict [("sentiment", PInt 1)]) = Raise AttributeError.
Proof. split; reflexivity. Qed.

(** The three cleaning steps leave canonical fields as they are. *)
Lemma clean_title_canonical (s : string) :
  trimmed s -> (if truthy (strip s) then Some (strip s) else None) = Some s.
Proof. intros H. rewrite (trimmed_truthy s H). destruct H as [_ ->]. reflexivity. Qed.

Lemma clean_topics_canonical (tp : list string) :
  List.length tp = 3 -> Forall trimmed tp ->
  firstn 3 (pad_topics 3
    (firstn 3 (filter truthy (map (fun topic => strip (py_str str_of topic)) (map PStr tp)))))
  = tp.
Proof.
  intros Hlen Htp.
  destruct tp as [|a [|b [|c [|d rest]]]]; try discriminate Hlen.
  inversion Htp as [|? ? Ha Htp1]; subst.
  inversion Htp1 as [|? ? Hb Htp2]; subst.
  inversion Htp2 as [|? ? Hc _]; subst.
  cbn [map py_str filter].
  rewrite (trimmed_truthy a Ha), (trimmed_truthy b Hb), (trimmed_truthy c Hc).
  destruct Ha as [_ ->], Hb as [_ ->], Hc as [_ ->]. reflexivity.
Qed.

Lemma clean_sentiment_canonical (s : string) :
  valid_sentiment s ->
  lower s = s /\ mem s ["positive"; "negative"; "neutral"] = true.
Proof. intros [<-|[<-|[<-|[]]]]; split; reflexivity. Qed.

Lemma to_dict_fields (c : metadata) :
  dict_get_default (match to_dict c with PDict d => d | _ => [] end) "title" PNone
    = match title c with Some s => PStr s | None => PNone end
  /\ dict_get_default (match to_dict c with PDict d => d | _ => [] end) "topics" (PList [])
    = PList (map PStr (topics c))
  /\ dict_get_default (match to_dict c with PDict d => d | _ => [] end) "sentiment" (PStr "neutral")
    = PStr (sentiment c).
Proof. repeat split. Qed.

(** C9: validating a structure that is already canonical (title null or a
    non-empty trimmed string, exactly three non-empty trimmed topics, a
    sentiment among positive, neutral, negative) returns an equal structure. *)
Theorem validate_canonical_fixpoint (c : metadata) (H : canonical c) :
  _validate_metadata str_of (to_dict c) = Ok c.
Proof.
  destruct (to_dict_fields c) as (Et & Etp & Es).
  destruct H as (Ht & Hlen & Htp & Hs).
  destruct (clean_sentiment_canonical _ Hs) as [Hlow Hmem].
  unfold _validate_metadata. cbn [to_dict] in *.
  rewrite Et, Etp, Es. cbn [bind]. rewrite Hlow, Hmem.
  rewrite (clean_topics_canonical _ Hlen Htp).
  destruct c as [[ts|] tp s]; cbn [title topics sentiment] in *.
  - now rewrite (clean_title_canonical ts Ht).
  - reflexivity.
Qed.

(** Validation composed with itself is validation: a second pass over the
    result of the first changes nothing, and a raise stays a raise. *)
Lemma validate_twice (m : pyval) :
  bind (validate m) (fun c => validate (to_dict c)) = validate m.
Proof.
  destruct (validate m) as [c|e] eqn:E; cbn [bind]; [|reflexivity].
  destruct (validate_returns_canonical m c E) as (Ht & Hlen & Htp & Hs).
  destruct (to_dict_fields c) as (Et & Etp & Es).
  destruct (clean_sentiment_canonical _ Hs) as [Hlow Hmem].
  unfold _validate_metadata. cbn [to_dict] in *.
  rewrite Et, Etp, Es. cbn [bind]. rewrite Hlow, Hmem.
  rewrite (clean_topics_canonical _ Hlen Htp).
  destruct c as [[ts|] tp s]; cbn [title topics sentiment] in *.
  - now rewrite (clean_title_canonical ts Ht).
  - reflexivity.
Qed.

End WithRuntime.

End ValidatorFacts.

(* ===================================================================== *)
(** ** Summary and metadata extraction *)
(* ===================================================================== *)

Module OrchestratorFacts.
Import PyStr Py LLM PyStrFacts RetryFacts ValidatorFacts.

Example mock_summary_short : _mock_summary "This is a test text." = "This is a test text.".
Proof. reflexivity. Qed.

Example mock_summary_long :
  _mock_summary long_text
  = "This text discusses one two three four five six seven eight nine ten eleven twelve thirteen fourteen fifteen... [Summary generated offline]".
Proof. reflexivity. Qed.

Example generate_summary_provider_down :
  generate_summary failing_service "Short text."
  = (Ok "Short text.", [ECall 0; ESleep 1; ECall 1; ESleep 2; ECall 2]).
Proof. reflexivity. Qed.

Section WithRuntime.

Variable str_of : pyval -> string.
Variable json_loads : string -> result pyval.

Local Abbreviation validate := (_validate_metadata str_of).
Local Abbreviation extract := (extract_metadata str_of json_loads).

Lemma mock_metadata_canonical (text : string) : canonical (_mock_metadata text).
Proof.
  unfold canonical. cbn. repeat split; try discriminate; auto.
  repeat (apply Forall_cons; [split; [discriminate | reflexivity]|]); apply Forall_nil.
Qed.


(** [extract_metadata] returns the validated provider output or the mock
    metadata, and nothing else. *)
Lemma extract_metadata_cases (self : LLMService) (text : string) :
  fst (extract self text) = Ok (_mock_metadata text)
  \/ exists m c, validate m = Ok c /\ fst (extract self text) = Ok c.
Proof.
  unfold extract_metadata. destruct (client self) as [openai|]; [|cbn; auto].
  destruct (_make_api_call _ _ _) as [[[response|]|e] tr]; cbn; auto.
  destruct (json_loads response) as [m|e]; cbn.
  - destruct (validate m) as [c|e] eqn:E.
    + right. eauto.
    + left. destruct e; reflexivity.
  - left. destruct e; reflexivity.
Qed.

(** C1: on every path (no client, provider exhausted, malformed provider
    output, validated provider output) and for every text, so for every
    non-empty one, the metadata of the analysis has a sentiment among
    positive, neutral, negative and exactly three topics. *)
Theorem extract_metadata_sentiment_and_topics (self : LLMService) (text : string) :
  exists m,
    fst (extract_metadata str_of json_loads self text) = Ok m
    /\ valid_sentiment (sentiment m)
    /\ List.length (topics m) = 3.
Proof.
  destruct (extract_metadata_cases self text) as [Hmock|(m & c & Hval & Hres)].
  - exists (_mock_metadata text). split; [exact Hmock|].
    destruct (mock_metadata_canonical text) as (_ & Hlen & _ & Hs). auto.
  - exists c. split; [exact Hres|].
    destruct (validate_returns_canonical str_of m c Hval) as (_ & Hlen & _ & Hs). auto.
Qed.





End WithRuntime.

(** C7: without a provider client the summary is the input text itself
    when the text has at most 20 blank-separated words, and otherwise
    "This text discusses ", the first 15 words joined by single blanks, and
    "... [Summary generated offline]". *)
Theorem offline_summary_shape (self : LLMService) (text : string)
        (Hoffline : client self = None) :
  (List.length (split text) <= 20
   /\ generate_summary self text = (Ok text, []))
  \/ (20 < List.length (split text)
      /\ generate_summary self text
         = (Ok ("This text discusses " ++ join " " (firstn 15 (split text))
                ++ "... [Summary generated offline]")%string, [])).
Proof.
  unfold generate_summary, _mock_summary. rewrite Hoffline.
  destruct (Nat.leb_spec (List.length (split text)) 20) as [Hle|Hgt].
  - left. split; [exact Hle | reflexivity].
  - right. split; [exact Hgt | reflexivity].
Qed.

End OrchestratorFacts.

(* ===================================================================== *)
(** ** Keyword extraction *)
(* ===================================================================== *)

Module KeywordFacts.
Import PyStr Py TextProc PyStrFacts ListFacts.

Example counter_ex :
  Counter ["cat"; "mat"; "cat"; "sat"; "mat"; "cat"] = [("cat", 3%Z); ("mat", 2%Z); ("sat", 1%Z)].
Proof. reflexivity. Qed.

Example sort_desc_stable :
  sort_desc [("a", 1%Z); ("b", 2%Z); ("c", 1%Z); ("d", 2%Z)]
  = [("b", 2%Z); ("d", 2%Z); ("a", 1%Z); ("c", 1%Z)].
Proof. reflexivity. Qed.

Example findall_alpha3_ex :
  findall_alpha3 "abc1 def_g hij kl mnop" = ["hij"; "mnop"].
Proof. reflexivity. Qed.

Example regex_tier_cat_mat :
  _extract_with_regex basic_stop_words
    "The cat sat on the mat. The cat was very comfortable on the soft mat." 3
  = ["cat"; "mat"; "comfortable"].
Proof. reflexivity. Qed.

(** A negative [top_k] is a slice bound counted from the end. *)
Example regex_tier_negative_top_k :
  _extract_with_regex basic_stop_words "alpha bravo charlie" (-1) = ["alpha"; "bravo"].
Proof. reflexivity. Qed.

Example extract_keywords_empty :
  extract_keywords basic_stop_words blank_tokenize all_nouns "" 3 = [].
Proof. reflexivity. Qed.

Example extract_keywords_stop_words_only :
  extract_keywords basic_stop_words blank_tokenize all_nouns
    "The the the and and or but in on at to for of with by" 5 = [].
Proof. reflexivity. Qed.

(** *** Membership through counting, sorting and slicing *)

Lemma count_incr_keys (word : string) (counts : list (string * Z)) (w : string) :
  In w (map fst (count_incr word counts)) -> w = word \/ In w (map fst counts).
Proof.
  induction counts as [|[k n] rest IH]; simpl.
  - intros [<-|[]]. now left.
  - destruct (String.eqb k word); simpl.
    + intros [<-|H]; auto.
    + intros [<-|H]; auto. destruct (IH H); auto.
Qed.

Lemma Counter_keys_from (words : list string) :
  forall (acc : list (string * Z)) (w : string),
    In w (map fst (fold_left (fun counts word => count_incr word counts) words acc)) ->
    In w words \/ In w (map fst acc).
Proof.
  induction words as [|x xs IH]; intros acc w H; simpl in *.
  - now right.
  - destruct (IH _ _ H) as [Hxs|Hacc]; [now left; right|].
    destruct (count_incr_keys _ _ _ Hacc) as [->|Hin]; [left; now left | now right].
Qed.

Lemma Counter_keys (words : list string) (w : string) :
  In w (map fst (Counter words)) -> In w words.
Proof.
  intros H. destruct (Counter_keys_from words [] w H) as [Hin|[]]. exact Hin.
Qed.

Lemma insert_desc_In (x y : string * Z) (l : list (string * Z)) :
  In y (insert_desc x l) -> y = x \/ In y l.
Proof.
  induction l as [|z zs IH]; simpl.
  - intros [<-|[]]. now left.
  - destruct (snd x <? snd z)%Z; simpl.
    + intros [<-|H]; auto. destruct (IH H); auto.
    + intros [<-|[<-|H]]; auto.
Qed.

Lemma sort_desc_In (l : list (string * Z)) (y : string * Z) :
  In y (sort_desc l) -> In y l.
Proof.
  induction l as [|x xs IH]; simpl; [tauto|].
  intros H. destruct (insert_desc_In _ _ _ H) as [->|Hin]; auto.
Qed.

Lemma slice_list_In {A : Type} (k : Z) (l : list A) (x : A) :
  In x (slice_list k l) -> In x l.
Proof. unfold slice_list. destruct (k <? 0)%Z; apply firstn_In. Qed.

Lemma slice_list_length {A : Type} (k : Z) (l : list A) :
  (0 <= k)%Z -> (Z.of_nat (List.length (slice_list k l)) <= k)%Z.
Proof.
  intros Hk. unfold slice_list.
  destruct (Z.ltb_spec k 0) as [Hneg|_]; [lia|].
  pose proof (firstn_le_length (Z.to_nat k) l). lia.
Qed.

Lemma most_common_length (k : Z) (counts : list (string * Z)) :
  (0 <= k)%Z -> (Z.of_nat (List.length (most_common k counts)) <= k)%Z.
Proof.
  intros Hk. unfold most_common.
  pose proof (firstn_le_length (Z.to_nat k) (sort_desc counts)). lia.
Qed.

Lemma mem_false_not_In (w : string) (l : list string) :
  mem w l = false <-> ~ In w l.
Proof.
  unfold mem. split.
  - intros H Hin. assert (existsb (String.eqb w) l = true) as E.
    { apply existsb_exists. exists w. split; [exact Hin | apply String.eqb_refl]. }
    congruence.
  - intros H. destruct (existsb (String.eqb w) l) eqn:E; [|reflexivity].
    apply existsb_exists in E as (x & Hin & Heq).
    apply String.eqb_eq in Heq. subst x. contradiction.
Qed.

(** *** What the two tokenizations of a lower-cased text give *)

Lemma lowered_all_not_upper (text : string) :
  all_chars (fun c => negb (is_upper c)) (lower text) = true.
Proof. apply has_char_false_all, lower_no_upper. Qed.

Lemma findall_alpha3_lowered (text w : string) :
  In w (findall_alpha3 (lower text)) ->
  all_chars is_lower w = true /\ 3 <= String.length w.
Proof.
  unfold findall_alpha3. intros H. apply filter_In in H as [Hrun Hok].
  apply andb_true_iff in Hok as [Halpha Hlen].
  pose proof (runs_all is_word _ _ (lowered_all_not_upper text)) as Hall.
  rewrite Forall_forall in Hall.
  split.
  - apply alpha_no_upper_all_lower; [exact Halpha | now apply Hall].
  - now apply Nat.leb_le.
Qed.

Lemma findall_words_lowered (text w : string) :
  In w (findall_words (lower text)) -> has_char is_upper w = false.
Proof.
  intros H. apply has_char_false_all.
  pose proof (runs_all is_word _ _ (lowered_all_not_upper text)) as Hall.
  rewrite Forall_forall in Hall. now apply Hall.
Qed.

Lemma all_alpha_has_alpha (w : string) :
  all_chars is_alpha w = true -> 1 <= String.length w -> has_char is_alpha w = true.
Proof.
  destruct w as [|c r]; simpl; [lia|].
  intros H _. apply andb_true_iff in H as [-> _]. reflexivity.
Qed.

Lemma lower_char_ascii (c : ascii) :
  (code c <? 128) = true -> (code (lower_char c) <? 128) = true.
Proof. destruct c as [[] [] [] [] [] [] [] []]; intros H; try reflexivity; discriminate H. Qed.

(** Lower-casing an ASCII text gives an ASCII text. *)
Lemma lower_ascii (text : string) : is_ascii text = true -> is_ascii (lower text) = true.
Proof.
  unfold is_ascii, lower. induction text as [|c r IH]; simpl; [reflexivity|].
  intros H. apply andb_true_iff in H as [Hc Hr].
  now rewrite (lower_char_ascii c Hc), (IH Hr).
Qed.

Section WithProcessor.

Variable stop_words : list string.
Variable word_tokenize : string -> result (list string).
Variable pos_tag : list string -> result (list (string * string)).

(** The tokens of an ASCII text without capital letters are ASCII strings
    without capital letters, and the tagger returns the tokens it was
    given, each with a tag. *)
Hypothesis word_tokenize_case :
  forall s tokens,
    word_tokenize s = Ok tokens ->
    is_ascii s = true -> has_char is_upper s = false ->
    Forall (fun t => is_ascii t = true /\ has_char is_upper t = false) tokens.
Hypothesis pos_tag_tokens :
  forall tokens tagged,
    pos_tag tokens = Ok tagged -> incl (map fst tagged) tokens.

Local Abbreviation regex_tier := (_extract_with_regex stop_words).
Local Abbreviation nltk_tier := (_extract_with_nltk stop_words word_tokenize pos_tag).

(** *** Tier 2 *)

Lemma regex_tier_is_sorted_scores (text : string) (top_k : Z) :
  regex_tier text top_k
  = map fst (slice_list top_k (sort_desc (scored_words stop_words text))).
Proof.
  unfold _extract_with_regex, scored_words.
  destruct (filter _ (findall_alpha3 (lower text))) as [|w ws] eqn:E; [|reflexivity].
  unfold slice_list. cbn [Counter fold_left map sort_desc fold_right List.length].
  destruct (top_k <? 0)%Z; now rewrite firstn_nil.
Qed.

Lemma scored_words_keys (text w : string) :
  In w (map fst (scored_words stop_words text)) ->
  In w (findall_alpha3 (lower text)) /\ mem w stop_words = false.
Proof.
  unfold scored_words. rewrite map_map. cbn [fst]. intros H.
  apply Counter_keys in H. apply filter_In in H as [Hin Hsw].
  split; [exact Hin | now apply negb_true_iff].
Qed.

Lemma regex_tier_keywords (text : string) (top_k : Z) :
  Forall (keyword_ok stop_words) (regex_tier text top_k).
Proof.
  rewrite regex_tier_is_sorted_scores. apply Forall_forall. intros w Hw.
  apply in_map_iff in Hw as (p & <- & Hp).
  apply slice_list_In, sort_desc_In in Hp.
  destruct (scored_words_keys text (fst p) (in_map fst _ _ Hp)) as [Hin Hsw].
  destruct (findall_alpha3_lowered _ _ Hin) as [Hlow Hlen].
  repeat split; assumption.
Qed.

Lemma regex_tier_length (text : string) (top_k : Z) :
  (0 <= top_k)%Z -> (Z.of_nat (List.length (regex_tier text top_k)) <= top_k)%Z.
Proof.
  intros Hk. rewrite regex_tier_is_sorted_scores, length_map.
  now apply slice_list_length.
Qed.

(** The bonus for capitalisation is never given: [text] has been replaced by
    its lower-cased form before the test, so no capitalised or upper-case
    form of a word occurs in it. *)
Lemma word_score_no_bonus (text word : string) (count : Z) :
  has_char is_alpha word = true ->
  word_score (lower text) word count = base_score word count.
Proof.
  intros Hw. unfold word_score, base_score.
  rewrite (cased_forms_absent_from_lowered text word Hw).
  destruct (4 <? String.length word), (verb_ending word); lia.
Qed.

Lemma scored_words_no_bonus (text : string) :
  Forall (fun ws => exists count, snd ws = base_score (fst ws) count)
         (scored_words stop_words text).
Proof.
  apply Forall_forall. intros [w s] Hin.
  pose proof (scored_words_keys text w (in_map fst _ _ Hin)) as [Hfind _].
  unfold scored_words in Hin. apply in_map_iff in Hin as ([w' n] & Heq & _).
  cbn [fst snd] in Heq. injection Heq as -> <-.
  exists n. cbn [fst snd]. apply word_score_no_bonus.
  unfold findall_alpha3 in Hfind. apply filter_In in Hfind as [_ Hok].
  apply andb_true_iff in Hok as [Halpha Hlen]. apply Nat.leb_le in Hlen.
  apply all_alpha_has_alpha; [exact Halpha | lia].
Qed.

(** *** Tier 1 *)

Lemma nltk_tier_keywords (text : string) (top_k : Z) (keywords : list string) :
  is_ascii text = true ->
  nltk_tier text top_k = Ok keywords ->
  Forall (keyword_ok stop_words) keywords.
Proof.
  unfold _extract_with_nltk. intros Hascii H.
  set (tokenized := match word_tokenize (lower text) with
                    | Raise LookupError => Ok (findall_words (lower text))
                    | r => r
                    end) in H.
  assert (Htok : forall tokens, tokenized = Ok tokens ->
                                Forall (fun t => has_char is_upper t = false) tokens).
  { subst tokenized. intros tokens E.
    destruct (word_tokenize (lower text)) as [ts|e] eqn:Ew.
    - injection E as <-.
      pose proof (word_tokenize_case _ _ Ew (lower_ascii text Hascii) (lower_no_upper text))
        as Htokens.
      apply Forall_forall. intros t Ht. rewrite Forall_forall in Htokens.
      now apply Htokens.
    - destruct e; try discriminate E. injection E as <-.
      apply Forall_forall. intros t. apply findall_words_lowered. }
  destruct tokenized as [tokens|e]; [|discriminate H]. cbn [bind] in H.
  specialize (Htok tokens eq_refl). rewrite Forall_forall in Htok.
  set (filtered_tokens := filter _ tokens) in H.
  assert (Hfil : forall w, In w filtered_tokens -> keyword_ok stop_words w).
  { intros w Hw. apply filter_In in Hw as [Hin Hok].
    apply andb_true_iff in Hok as [Hok Halpha].
    apply andb_true_iff in Hok as [Hsw Hlen].
    apply andb_true_iff in Halpha as [_ Halpha].
    repeat split.
    - apply alpha_no_upper_all_lower; [exact Halpha|].
      apply has_char_false_all. now apply Htok.
    - apply Nat.ltb_lt in Hlen. lia.
    - now apply negb_true_iff. }
  set (nouns := match pos_tag filtered_tokens with
                | Ok pos_tags => map fst (filter (fun wp => prefix "NN" (snd wp)) pos_tags)
                | Raise _ => filtered_tokens
                end) in H.
  assert (Hnouns : forall w, In w nouns -> keyword_ok stop_words w).
  { subst nouns. intros w Hw. apply Hfil.
    destruct (pos_tag filtered_tokens) as [tagged|e] eqn:Et; [|exact Hw].
    apply (pos_tag_tokens _ _ Et).
    apply in_map_iff in Hw as (p & <- & Hp). apply filter_In in Hp as [Hp _].
    now apply in_map. }
  apply Forall_forall. intros w Hw. apply Hnouns.
  destruct nouns as [|n ns]; injection H as <-; [destruct Hw|].
  apply in_map_iff in Hw as (p & <- & Hp).
  unfold most_common in Hp. apply firstn_In, sort_desc_In in Hp.
  apply Counter_keys. now apply in_map.
Qed.

Lemma nltk_tier_length (text : string) (top_k : Z) (keywords : list string) :
  (0 <= top_k)%Z -> nltk_tier text top_k = Ok keywords ->
  (Z.of_nat (List.length keywords) <= top_k)%Z.
Proof.
  intros Hk. unfold _extract_with_nltk.
  destruct (match word_tokenize (lower text) with
            | Raise LookupError => Ok (findall_words (lower text))
            | r => r
            end) as [tokens|e]; [|discriminate]. cbn [bind].
  match goal with |- match ?nouns with _ => _ end = _ -> _ => destruct nouns as [|noun rest] end;
    intros [= <-].
  - cbn. lia.
  - rewrite length_map. now apply most_common_length.
Qed.

(** C10 (amended): for an ASCII text and a count [top_k >= 0], whichever
    tier answers, every keyword consists of lower-case letters only, has at
    least three of them and is no stop word, and there are at most [top_k]
    keywords. *)
Theorem extract_keywords_wellformed (text : string) (top_k : Z)
        (Hk : (0 <= top_k)%Z) (Hascii : is_ascii text = true) :
  Forall (keyword_ok stop_words)
         (extract_keywords stop_words word_tokenize pos_tag text top_k)
  /\ (Z.of_nat (List.length (extract_keywords stop_words word_tokenize pos_tag text top_k))
      <= top_k)%Z.
Proof.
  unfold extract_keywords.
  destruct (negb (truthy text) || negb (truthy (strip text))).
  - split; [constructor | cbn; lia].
  - destruct (nltk_tier text top_k) as [keywords|e] eqn:E.
    + split; [now apply (nltk_tier_keywords text top_k)
             | now apply (nltk_tier_length text top_k)].
    + split; [apply regex_tier_keywords | now apply regex_tier_length].
Qed.

End WithProcessor.

(** C10 (as stated) fails for a negative [top_k], which is a slice bound
    counted from the end in the regex tier: with [top_k = -1] that tier
    returns two keywords of three candidates, and the tagging tier, which
    returns none, has more than -1 keywords too. *)
Lemma negative_top_k_exceeds_bound :
  extract_keywords basic_stop_words broken_tokenizer no_tagger
    "alpha bravo charlie" (-1) = ["alpha"; "bravo"]
  /\ ~ (Z.of_nat (List.length
                    (extract_keywords basic_stop_words broken_tokenizer no_tagger
                       "alpha bravo charlie" (-1))) <= -1)%Z
  /\ ~ (Z.of_nat (List.length
                    (extract_keywords basic_stop_words no_tokenizer no_tagger
                       "alpha bravo charlie" (-1))) <= -1)%Z.
Proof.
  split; [reflexivity|]. split; intros H; vm_compute in H; apply H; reflexivity.
Qed.

(** C5 (code): in "alpha Bravo" the word "bravo" stands capitalised, and
    still both words score 2 (one occurrence, one for the length): the bonus
    is not given, and the first keyword is "alpha", where the bonus would make
    it "bravo". *)
Theorem capitalised_word_gets_no_bonus :
  contains (title "bravo") "alpha Bravo" = true
  /\ scored_words basic_stop_words "alpha Bravo" = [("alpha", 2%Z); ("bravo", 2%Z)]
  /\ _extract_with_regex basic_stop_words "alpha Bravo" 1 = ["alpha"].
Proof. repeat split. Qed.

End KeywordFacts.

(* ===================================================================== *)
(** ** The confidence score *)
(* ===================================================================== *)

Module ConfidenceFacts.
Import PyStr Py TextProc PyStrFacts.

Local Open Scope Q_scope.

Example confidence_good_inputs :
  calculate_confidence_score
    "This is a substantial article about artificial intelligence and machine learning with plenty of content."
    "This article discusses AI and ML technologies."
    ["artificial"; "intelligence"; "machine"] == 8 # 10.
Proof. reflexivity. Qed.

Example confidence_marked_summary :
  calculate_confidence_score "Short." marked_summary [] == 4 # 10.
Proof. reflexivity. Qed.

Lemma Qle_bool_false (x y : Q) : Qle_bool x y = false -> y < x.
Proof.
  intros H. apply Qnot_le_lt. intros Hle.
  apply Qle_bool_iff in Hle. congruence.
Qed.

(** Clamping to [0, 1], for a positive score. *)
Lemma clamp_positive (x : Q) :
  0 < x -> qmin 1 (qmax 0 x) == (if Qle_bool 1 x then 1 else x).
Proof.
  intros Hx. unfold qmin, qmax.
  destruct (Qle_bool x 0) eqn:E0.
  - apply Qle_bool_iff in E0. lra.
  - reflexivity.
Qed.

Lemma endswith_marker_nonempty (s : string) :
  endswith fallback_marker s = true -> truthy s = true.
Proof. destruct s; [discriminate | reflexivity]. Qed.

Lemma keyword_term_nonneg (n : nat) : 0 <= (2 # 10) * (inject_Z (Z.of_nat n) / 3).
Proof.
  assert (0 <= inject_Z (Z.of_nat n)) as H.
  { unfold Qle. cbn. lia. }
  unfold Qdiv. set (q := inject_Z (Z.of_nat n)) in *.
  assert (/ 3 == 1 # 3) as -> by reflexivity. lra.
Qed.

Lemma keyword_term_small (n : nat) :
  (n <= 5)%nat -> (2 # 10) * (inject_Z (Z.of_nat n) / 3) <= 1 # 3.
Proof.
  intros Hn. assert (inject_Z (Z.of_nat n) <= 5) as H.
  { unfold Qle. cbn. lia. }
  unfold Qdiv. set (q := inject_Z (Z.of_nat n)) in *.
  assert (/ 3 == 1 # 3) as -> by reflexivity. lra.
Qed.

Lemma score_before_quality_bounds (text : string) (keywords : list string) :
  0 <= score_before_quality text keywords
  /\ ((List.length keywords <= 5)%nat -> score_before_quality text keywords <= 5 # 6).
Proof.
  unfold score_before_quality.
  pose proof (keyword_term_nonneg (List.length keywords)) as Hk0.
  split; [|intros Hlen; pose proof (keyword_term_small _ Hlen) as Hk1];
    destruct (truthy text), (50 <? List.length (split text))%nat,
             (20 <? List.length (split text))%nat;
    destruct keywords as [|k ks];
    try set (q := (2 # 10) * (inject_Z (Z.of_nat (List.length (k :: ks))) / 3)) in *;
    lra.
Qed.

Lemma score_of_marked (text summary : string) (keywords : list string) :
  endswith fallback_marker summary = true ->
  calculate_confidence_score text summary keywords
  = qmin 1 (qmax 0 (score_before_quality text keywords + (1 # 10))).
Proof.
  intros Hm. unfold calculate_confidence_score, score_before_quality.
  rewrite (endswith_marker_nonempty summary Hm), Hm.
  destruct (truthy text); reflexivity.
Qed.

Lemma score_of_plain (text summary : string) (keywords : list string) :
  summary <> ""%string -> endswith fallback_marker summary = false ->
  calculate_confidence_score text summary keywords
  = qmin 1 (qmax 0 (score_before_quality text keywords + (3 # 10))).
Proof.
  intros Hne Hp. apply truthy_true in Hne.
  unfold calculate_confidence_score, score_before_quality.
  rewrite Hne, Hp. destruct (truthy text); reflexivity.
Qed.

(** C6 (as stated) fails in two ways: an empty summary carries no marker and
    still scores lower than the marked one; and with nine keywords both
    scores are capped at 1. *)
Lemma marked_summary_not_always_lower :
  ~ (calculate_confidence_score "Short." fallback_marker []
     < calculate_confidence_score "Short." "" [])
  /\ ~ (calculate_confidence_score "Short." marked_summary nine_keywords
        < calculate_confidence_score "Short." plain_summary nine_keywords).
Proof. split; intros H; vm_compute in H; discriminate H. Qed.

(** C6 (amended): against a non-empty summary without the marker, a summary
    with the marker never scores higher, it scores strictly lower exactly
    when its own score is below the cap 1, and that is so whenever there
    are at most five keywords. *)
Theorem marked_summary_scores_lower
        (text marked plain : string) (keywords : list string)
        (Hmarked : endswith fallback_marker marked = true)
        (Hplain : endswith fallback_marker plain = false)
        (Hnonempty : plain <> ""%string) :
  calculate_confidence_score text marked keywords
    <= calculate_confidence_score text plain keywords
  /\ (calculate_confidence_score text marked keywords
        < calculate_confidence_score text plain keywords
      <-> calculate_confidence_score text marked keywords < 1)
  /\ ((List.length keywords <= 5)%nat ->
      calculate_confidence_score text marked keywords
        < calculate_confidence_score text plain keywords).
Proof.
  rewrite (score_of_marked text marked keywords Hmarked).
  rewrite (score_of_plain text plain keywords Hnonempty Hplain).
  destruct (score_before_quality_bounds text keywords) as [H0 H5].
  set (c := score_before_quality text keywords) in *.
  rewrite (clamp_positive (c + (1 # 10))) by lra.
  rewrite (clamp_positive (c + (3 # 10))) by lra.
  destruct (Qle_bool 1 (c + (1 # 10))) eqn:E1;
    destruct (Qle_bool 1 (c + (3 # 10))) eqn:E3;
    try apply Qle_bool_iff in E1; try apply Qle_bool_iff in E3;
    try apply Qle_bool_false in E1; try apply Qle_bool_false in E3.
  - split; [lra|]. split; [split; intros H; lra|]. intros Hlen. specialize (H5 Hlen). lra.
  - lra.
  - split; [lra|]. split; [split; intros H; lra|]. intros _. lra.
  - split; [lra|]. split; [split; intros H; lra|]. intros _. lra.
Qed.

End ConfidenceFacts.

(* ===================================================================== *)
(** ** The score of a search result *)
(* ===================================================================== *)

Module SearchFacts.
Import PyStr Py Search.

Local Open Scope Q_scope.

Example search_without_filters :
  search_analyses None (Some ""%string) None 10
  = HTTPException 400 "At least one search parameter (topic, keyword, or sentiment) is required".
Proof. reflexivity. Qed.

Example confidence_climate :
  confidence (Some "CLIMATE"%string) None (Some "Negative"%string) climate_row == 1.
Proof. reflexivity. Qed.

Example confidence_one_keyword :
  confidence None (Some "agri"%string) None climate_row == 65 # 100.
Proof. reflexivity. Qed.

Lemma matches_is_count (needle : string) (items : list string) :
  matches needle items
  = Z.of_nat (List.length (filter (fun t => contains (lower needle) (lower t)) items)).
Proof.
  induction items as [|t rest IH]; [reflexivity|].
  cbn [matches filter]. destruct (contains (lower needle) (lower t)).
  - rewrite IH. cbn [List.length]. lia.
  - exact IH.
Qed.

Lemma empty_column_no_match (column : option (list string)) (needle : string) :
  nonempty column = false -> matches needle (or_empty column) = 0%Z.
Proof. destruct column as [[|x l]|]; [reflexivity | discriminate | reflexivity]. Qed.

Lemma cap_agrees (c t : Q) :
  c == t -> (if Qle_bool c 1 then c else 1) == (if Qle_bool 1 t then 1 else t).
Proof.
  intros Heq.
  destruct (Qle_bool c 1) eqn:Ec; destruct (Qle_bool 1 t) eqn:Et;
    try apply Qle_bool_iff in Ec; try apply Qle_bool_iff in Et; try lra.
  assert (~ c <= 1) as Hc by (intros Hle; apply Qle_bool_iff in Hle; congruence).
  assert (~ 1 <= t) as Ht by (intros Hle; apply Qle_bool_iff in Hle; congruence).
  lra.
Qed.

(** The score computed in the loop is the score of the formula. *)
Lemma confidence_is_spec_score (topic keyword sentiment_param : option string)
      (analysis : Analysis) :
  confidence topic keyword sentiment_param analysis
  == spec_score topic keyword sentiment_param analysis.
Proof.
  unfold confidence, spec_score. apply cap_agrees.
  rewrite <- !matches_is_count.
  pose proof (empty_column_no_match (topics analysis) (param_str topic)) as Ht.
  pose proof (empty_column_no_match (keywords analysis) (param_str keyword)) as Hk.
  destruct (given topic), (nonempty (topics analysis));
    destruct (given keyword), (nonempty (keywords analysis));
    destruct (given sentiment_param
              && String.eqb (sentiment analysis) (lower (param_str sentiment_param)));
    cbn [andb];
    try rewrite (Ht eq_refl); try rewrite (Hk eq_refl);
    try set (a := inject_Z (matches (param_str topic) (or_empty (topics analysis))));
    try set (b := inject_Z (matches (param_str keyword) (or_empty (keywords analysis))));
    change (inject_Z 0) with 0; lra.
Qed.

Example bind_arguments_by_keyword_only :
  bind_arguments endpoint_parameters 0 ["topic"; "limit"] = Ok tt.
Proof. reflexivity. Qed.

Example bind_arguments_line_151 :
  bind_arguments endpoint_parameters 1 ["topic"; "keyword"; "sentiment"; "limit"]
  = Raise TypeError.
Proof. reflexivity. Qed.


End SearchFacts.

(* ===================================================================== *)
(** ** The theorems at concrete inputs *)
(* ===================================================================== *)

Module Instances.
Import PyStr Py PyStrFacts.

(** The blank-separated tokens of an ASCII text without capital letters are
    ASCII strings without capital letters. *)
Lemma blank_tokenize_case (s : string) (tokens : list string) :
  TextProc.blank_tokenize s = Ok tokens ->
  is_ascii s = true -> has_char is_upper s = false ->
  Forall (fun t => is_ascii t = true /\ has_char is_upper t = false) tokens.
Proof.
  intros [= <-] Hascii Hs. apply has_char_false_all in Hs.
  pose proof (runs_all (fun c => negb (is_space c)) _ s Hs) as Hall.
  pose proof (runs_all (fun c => negb (is_space c)) _ s Hascii) as Hall'.
  apply Forall_forall. intros t Ht.
  rewrite Forall_forall in Hall, Hall'. split.
  - now apply Hall'.
  - apply has_char_false_all. now apply Hall.
Qed.

(** The all-nouns tagger returns the tokens it was given. *)
Lemma all_nouns_tokens (tokens : list string) (tagged : list (string * string)) :
  TextProc.all_nouns tokens = Ok tagged -> incl (map fst tagged) tokens.
Proof.
  intros [= <-]. rewrite map_map. cbn [fst]. rewrite map_id. apply incl_refl.
Qed.

Lemma sample_metadata_canonical : LLM.canonical LLM.sample_metadata.
Proof.
  unfold LLM.canonical, LLM.trimmed, LLM.valid_sentiment. cbn.
  repeat split; try discriminate; auto.
  repeat (apply Forall_cons; [split; [discriminate | reflexivity]|]); apply Forall_nil.
Qed.

Lemma marked_summary_scores_lower_witness :
  endswith TextProc.fallback_marker TextProc.marked_summary = true
  /\ endswith TextProc.fallback_marker TextProc.plain_summary = false
  /\ TextProc.plain_summary <> ""
  /\ (TextProc.calculate_confidence_score "Short." TextProc.marked_summary ["cat"; "mat"]
      < TextProc.calculate_confidence_score "Short." TextProc.plain_summary ["cat"; "mat"])%Q.
Proof.
  split; [reflexivity|]. split; [reflexivity|]. split; [discriminate|].
  apply (ConfidenceFacts.marked_summary_scores_lower
           "Short." TextProc.marked_summary TextProc.plain_summary ["cat"; "mat"]).
  - reflexivity.
  - reflexivity.
  - discriminate.
  - cbn. lia.
Defined.

Lemma offline_summary_shape_witness :
  LLM.client LLM.offline_service = None
  /\ LLM.generate_summary LLM.offline_service LLM.long_text
     = (Ok "This text discusses one two three four five six seven eight nine ten eleven twelve thirteen fourteen fifteen... [Summary generated offline]",
        []).
Proof.
  split; [reflexivity|].
  destruct (OrchestratorFacts.offline_summary_shape LLM.offline_service LLM.long_text eq_refl)
    as [[Hshort _]|[_ Hlong]].
  - vm_compute in Hshort. lia.
  - exact Hlong.
Defined.

Lemma validate_canonical_fixpoint_witness :
  LLM.canonical LLM.sample_metadata
  /\ LLM._validate_metadata LLM.str_sample (LLM.to_dict LLM.sample_metadata)
     = Ok LLM.sample_metadata.
Proof.
  split; [exact sample_metadata_canonical|].
  exact (ValidatorFacts.validate_canonical_fixpoint
           LLM.str_sample LLM.sample_metadata sample_metadata_canonical).
Defined.

Lemma extract_keywords_wellformed_witness :
  (0 <= 3)%Z
  /\ is_ascii "The cat sat on the mat. The cat was very comfortable on the soft mat." = true
  /\ Forall (TextProc.keyword_ok TextProc.basic_stop_words)
            (TextProc.extract_keywords TextProc.basic_stop_words
               TextProc.blank_tokenize TextProc.all_nouns
               "The cat sat on the mat. The cat was very comfortable on the soft mat." 3)
  /\ (Z.of_nat (List.length
                  (TextProc.extract_keywords TextProc.basic_stop_words
                     TextProc.blank_tokenize TextProc.all_nouns
                     "The cat sat on the mat. The cat was very comfortable on the soft mat." 3))
      <= 3)%Z.
Proof.
  split; [lia|]. split; [reflexivity|].
  apply (KeywordFacts.extract_keywords_wellformed
           TextProc.basic_stop_words TextProc.blank_tokenize TextProc.all_nouns
           blank_tokenize_case all_nouns_tokens).
  - lia.
  - reflexivity.
Defined.

Example extract_keywords_blank_tokens :
  TextProc.extract_keywords TextProc.basic_stop_words
    TextProc.blank_tokenize TextProc.all_nouns
    "The cat sat on the mat. The cat was very comfortable on the soft mat." 3
  = ["cat"; "sat"; "was"].
Proof. reflexivity. Qed.

Example extract_keywords_without_nltk_data :
  TextProc.extract_keywords TextProc.basic_stop_words
    TextProc.no_tokenizer TextProc.no_tagger
    "The cat sat on the mat. The cat was very comfortable on the soft mat." 3
  = ["cat"; "mat"; "sat"].
Proof. reflexivity. Qed.

Example extract_keywords_regex_tier :
  TextProc.extract_keywords TextProc.basic_stop_words
    TextProc.broken_tokenizer TextProc.no_tagger
    "The cat sat on the mat. The cat was very comfortable on the soft mat." 3
  = ["cat"; "mat"; "comfortable"].
Proof. reflexivity. Qed.

Example extract_metadata_offline :
  LLM.extract_metadata LLM.str_sample LLM.json_sample LLM.offline_service "Any text."
  = (Ok (LLM._mock_metadata "Any text."), []).
Proof. reflexivity. Qed.

Example extract_metadata_provider_down :
  fst (LLM.extract_metadata LLM.str_sample LLM.json_sample LLM.failing_service "Any text.")
  = Ok (LLM._mock_metadata "Any text.").
Proof. reflexivity. Qed.

End Instances.

(* ===================================================================== *)
(** ** More on the retry loop *)
(* ===================================================================== *)

Module RetryBounds.
Import PyStr Py LLM PyStrFacts.

Lemma api_loop_calls (script : nat -> outcome) (retries : nat) :
  forall remaining attempt,
    calls (snd (api_loop script retries attempt remaining)) <= remaining.
Proof.
  induction remaining as [|n IH]; intros attempt; simpl.
  - lia.
  - destruct (script attempt) as [content|e]; simpl; [lia|].
    specialize (IH (S attempt)).
    destruct e; destruct (attempt =? retries - 1); simpl; try lia;
      destruct (api_loop script retries (S attempt) n) as [r tr]; simpl in *; lia.
Qed.

Lemma api_loop_slept (script : nat -> outcome) (retries : nat) :
  forall remaining attempt,
    attempt + remaining = retries -> 0 < remaining ->
    (0 <= slept (snd (api_loop script retries attempt remaining))
     <= 2 ^ Z.of_nat (retries - 1) - 2 ^ Z.of_nat attempt)%Z.
Proof.
  induction remaining as [|n IH]; intros attempt Hsum Hpos; [lia|].
  assert (Hmono : (2 ^ Z.of_nat attempt <= 2 ^ Z.of_nat (retries - 1))%Z).
  { apply Z.pow_le_mono_r; lia. }
  simpl. destruct (script attempt) as [content|e]; [simpl; lia|].
  destruct (Nat.eqb_spec attempt (retries - 1)) as [Hlast|Hmore].
  - rewrite <- Hlast. destruct e; simpl; lia.
  - assert (Hn : 0 < n) by lia.
    specialize (IH (S attempt) ltac:(lia) Hn).
    assert (Hstep : (2 ^ Z.of_nat (S attempt) = 2 * 2 ^ Z.of_nat attempt)%Z).
    { rewrite Nat2Z.inj_succ. apply Z.pow_succ_r. lia. }
    assert (Hpos2 : (0 < 2 ^ Z.of_nat attempt)%Z) by (apply Z.pow_pos_nonneg; lia).
    destruct (api_loop script retries (S attempt) n) as [r tr]. simpl in IH.
    destruct e; simpl; lia.
Qed.

(** X1: one operation of the service calls the provider at most
    [max_retries] times, and not at all when there is no client. *)
Theorem provider_calls_bounded
        (str_of : pyval -> string) (json_loads : string -> result pyval)
        (self : LLMService) (text : string) :
  calls (snd (generate_summary self text)) <= max_retries self
  /\ calls (snd (extract_metadata str_of json_loads self text)) <= max_retries self
  /\ (client self = None ->
      snd (generate_summary self text) = []
      /\ snd (extract_metadata str_of json_loads self text) = []).
Proof.
  unfold generate_summary, extract_metadata, _make_api_call.
  destruct (client self) as [openai|].
  - pose proof (api_loop_calls (openai (SummaryPrompt (slice_to 2000 text)))
                  (max_retries self) (max_retries self) 0) as Hs.
    pose proof (api_loop_calls (openai (MetadataPrompt (slice_to 2000 text)))
                  (max_retries self) (max_retries self) 0) as Hm.
    destruct (api_loop (openai (SummaryPrompt _)) _ _ _) as [r1 tr1].
    destruct (api_loop (openai (MetadataPrompt _)) _ _ _) as [r2 tr2].
    cbn in *. split; [exact Hs|]. split; [exact Hm|]. intros H. discriminate H.
  - cbn. split; [lia|]. split; [lia|]. intros _. split; reflexivity.
Qed.

(** X2: the retry loop sleeps at most [2^(retries-1) - 1] seconds in all,
    so at most 3 seconds for the 3 retries of the service. *)
Theorem backoff_total_bounded (retries : nat) (openai : provider) (p : prompt) :
  (0 <= slept (snd (_make_api_call retries openai p))
   <= 2 ^ Z.of_nat (retries - 1) - 1)%Z.
Proof.
  unfold _make_api_call. destruct retries as [|n]; [cbn; lia|].
  pose proof (api_loop_slept (openai p) (S n) (S n) 0 eq_refl ltac:(lia)) as H.
  change (2 ^ Z.of_nat 0)%Z with 1%Z in H. exact H.
Qed.

(** The prefix walked while attempts fail, counted in calls. *)
Lemma api_loop_first_reply (script : nat -> outcome) (retries i : nat) (content : string) :
  script i = Reply content ->
  forall remaining attempt,
    attempt <= i -> i < attempt + remaining -> attempt + remaining = retries ->
    (forall j, attempt <= j -> j < i -> exists e, script j = Raises e) ->
    fst (api_loop script retries attempt remaining) = Ok (Some (strip content))
    /\ calls (snd (api_loop script retries attempt remaining)) = S i - attempt.
Proof.
  intros Hreply. induction remaining as [|n IH]; intros attempt Hle Hlt Hsum Hfail; [lia|].
  cbn [api_loop]. destruct (Nat.eq_dec attempt i) as [->|Hne].
  - rewrite Hreply. cbn [fst snd calls]. split; [reflexivity | lia].
  - destruct (Hfail attempt ltac:(lia) ltac:(lia)) as [e He]. rewrite He.
    destruct (Nat.eqb_spec attempt (retries - 1)) as [Hlast|_]; [lia|].
    destruct (IH (S attempt) ltac:(lia) ltac:(lia) ltac:(lia)) as [Hres Hcalls].
    { intros j Hj1 Hj2. apply Hfail; lia. }
    destruct (api_loop script retries (S attempt) n) as [r tr]. cbn [fst snd] in *.
    destruct e; cbn [fst snd calls]; (split; [exact Hres | lia]).
Qed.

(** X3: the first attempt that replies ends the loop: its content, stripped,
    is the result, and no later attempt is made. *)
Theorem first_reply_wins (retries : nat) (openai : provider) (p : prompt)
        (i : nat) (content : string)
        (Hin : i < retries)
        (Hbefore : forall j, j < i -> exists e, openai p j = Raises e)
        (Hreply : openai p i = Reply content) :
  fst (_make_api_call retries openai p) = Ok (Some (strip content))
  /\ calls (snd (_make_api_call retries openai p)) = S i.
Proof.
  unfold _make_api_call.
  destruct (api_loop_first_reply (openai p) retries i content Hreply retries 0)
    as [Hres Hcalls]; try lia.
  { intros j _ Hj. now apply Hbefore. }
  split; [exact Hres | lia].
Qed.

Lemma api_loop_last_error (script : nat -> outcome) (retries : nat) (e : exn) :
  0 < retries -> script (retries - 1) = Raises e ->
  (forall j, j < retries -> exists e', script j = Raises e') ->
  forall remaining attempt,
    0 < remaining -> attempt + remaining = retries ->
    fst (api_loop script retries attempt remaining) = Raise (final_error e)
    /\ calls (snd (api_loop script retries attempt remaining)) = remaining.
Proof.
  intros Hpos Hlast Hfail.
  induction remaining as [|n IH]; intros attempt Hrem Hsum; [lia|].
  cbn [api_loop]. destruct (Nat.eqb_spec attempt (retries - 1)) as [Heq|Hne].
  - rewrite Heq, Hlast. assert (n = 0) as -> by lia.
    destruct e; cbn; split; reflexivity.
  - destruct (Hfail attempt ltac:(lia)) as [e' He']. rewrite He'.
    destruct (IH (S attempt) ltac:(lia) ltac:(lia)) as [Hres Hcalls].
    destruct (api_loop script retries (S attempt) n) as [r tr]. cbn in *.
    destruct e'; cbn; (split; [exact Hres | lia]).
Qed.

(** X4: when every attempt raises, all [retries] attempts are made and the
    loop raises what the last attempt raised, a timeout of the last attempt
    becoming the exception "API call timed out after all retries". *)
Theorem exhaustion_raises_last_error (retries : nat) (openai : provider) (p : prompt)
        (e : exn)
        (Hpos : 0 < retries)
        (Hall : forall j, j < retries -> exists e', openai p j = Raises e')
        (Hlast : openai p (retries - 1) = Raises e) :
  fst (_make_api_call retries openai p) = Raise (final_error e)
  /\ calls (snd (_make_api_call retries openai p)) = retries.
Proof.
  unfold _make_api_call.
  apply (api_loop_last_error (openai p) retries e Hpos Hlast Hall retries 0); lia.
Qed.

End RetryBounds.

(* ===================================================================== *)
(** ** More on summaries *)
(* ===================================================================== *)

Module SummaryFacts.
Import PyStr Py LLM PyStrFacts.

Example generate_summary_clips :
  fst (generate_summary wordy_service "Any text.") = Ok "First point.  Second point.".
Proof. reflexivity. Qed.

Lemma has_char_app (p : ascii -> bool) (s t : string) :
  has_char p (s ++ t) = has_char p s || has_char p t.
Proof.
  induction s as [|c r IH]; simpl; [reflexivity|].
  rewrite IH. apply orb_assoc.
Qed.

Lemma app_assoc_string (s t u : string) : ((s ++ t) ++ u = s ++ (t ++ u))%string.
Proof. induction s as [|c r IH]; simpl; [reflexivity | now rewrite IH]. Qed.

Lemma app_nil_r_string (s : string) : (s ++ "" = s)%string.
Proof. induction s as [|c r IH]; simpl; [reflexivity | now rewrite IH]. Qed.

Section Separator.

Variable sep : ascii.

Local Abbreviation is_sep := (fun c => Ascii.eqb c sep).

(** A string without the separator is one piece. *)
Lemma split_on_from_whole (x cur : string) :
  has_char is_sep x = false -> split_on_from sep cur x = [(cur ++ x)%string].
Proof.
  revert cur. induction x as [|c r IH]; intros cur H; simpl in *.
  - now rewrite app_nil_r_string.
  - apply orb_false_iff in H as [Hc Hr]. rewrite Hc, (IH _ Hr).
    now rewrite app_assoc_string.
Qed.

(** The first separator ends the first piece. *)
Lemma split_on_from_cut (x y cur : string) :
  has_char is_sep x = false ->
  split_on_from sep cur (x ++ String sep y)
  = (cur ++ x)%string :: split_on_from sep "" y.
Proof.
  revert cur. induction x as [|c r IH]; intros cur H; simpl in *.
  - rewrite Ascii.eqb_refl. now rewrite app_nil_r_string.
  - apply orb_false_iff in H as [Hc Hr]. rewrite Hc, (IH _ Hr).
    now rewrite app_assoc_string.
Qed.

(** No piece holds the separator. *)
Lemma split_on_from_pieces (s cur : string) :
  has_char is_sep cur = false ->
  Forall (fun w => has_char is_sep w = false) (split_on_from sep cur s).
Proof.
  revert cur. induction s as [|c r IH]; intros cur Hcur; simpl.
  - constructor; [exact Hcur | constructor].
  - destruct (Ascii.eqb c sep) eqn:Hc.
    + constructor; [exact Hcur | now apply IH].
    + apply IH. rewrite has_char_app, Hcur. simpl. now rewrite Hc.
Qed.

End Separator.

(** The clipped form of a summary has three pieces, the last one empty. *)
Lemma clipped_summary_pieces (a b : string) :
  has_char (fun c => Ascii.eqb c ".") a = false ->
  has_char (fun c => Ascii.eqb c ".") b = false ->
  split_on "." ((join ". " [a; b]) ++ ".") = [a; (" " ++ b)%string; ""].
Proof.
  intros Ha Hb.
  assert (E : ((join ". " [a; b]) ++ ".")%string
              = (a ++ String "." ((String " " b) ++ String "." ""))%string).
  { cbn [join]. rewrite app_assoc_string. reflexivity. }
  unfold split_on. rewrite E.
  rewrite (split_on_from_cut "." a _ "" Ha).
  rewrite (split_on_from_cut "." (String " " b) "" "") by (cbn; exact Hb).
  reflexivity.
Qed.

(** X6: a summary that comes from the provider splits into at most three
    pieces at full stops; when the reply has more than three such pieces,
    the summary is its first two pieces joined by ". " and closed by ".". *)
Theorem provider_summary_clipped (self : LLMService) (openai : provider)
        (text reply : string)
        (Hclient : client self = Some openai)
        (Hreply : fst (_make_api_call (max_retries self) openai
                         (SummaryPrompt (slice_to 2000 text))) = Ok (Some reply)) :
  exists summary,
    fst (generate_summary self text) = Ok summary
    /\ List.length (split_on "." summary) <= 3
    /\ (3 < List.length (split_on "." (strip reply)) ->
        summary = (join ". " (firstn 2 (split_on "." (strip reply))) ++ ".")%string).
Proof.
  unfold generate_summary. rewrite Hclient.
  destruct (_make_api_call _ _ _) as [r tr]. cbn [fst] in Hreply. subst r.
  cbn [fst try_except bind as_str].
  destruct (Nat.ltb_spec 3 (List.length (split_on "." (strip reply)))) as [Hlong|Hshort].
  - eexists. split; [reflexivity|]. split; [|reflexivity].
    pose proof (split_on_from_pieces "." (strip reply) "" eq_refl) as Hpieces.
    fold (split_on "." (strip reply)) in Hpieces.
    destruct (split_on "." (strip reply)) as [|a [|b rest]]; cbn in Hlong; try lia.
    inversion Hpieces as [|? ? Ha Hrest]; subst.
    inversion Hrest as [|? ? Hb _]; subst.
    cbn [firstn]. rewrite (clipped_summary_pieces a b Ha Hb). cbn. lia.
  - eexists. split; [reflexivity|]. split; [exact Hshort | lia].
Qed.

End SummaryFacts.

(* ===================================================================== *)
(** ** More on the validator and the mock results *)
(* ===================================================================== *)

Module ValidatorShape.
Import PyStr Py LLM PyStrFacts ValidatorFacts.

Example validate_sparse_reply :
  _validate_metadata str_sample (PDict sparse_reply)
  = Ok {| title := Some "Weekly digest";
          topics := ["markets"; "Topic 2"; "Topic 3"];
          sentiment := "negative" |}.
Proof. reflexivity. Qed.

Lemma sentiment_is_text_get (d : list (string * pyval)) :
  sentiment_is_text d ->
  exists s, dict_get_default d "sentiment" (PStr "neutral") = PStr s.
Proof.
  unfold sentiment_is_text, dict_get_default.
  destruct (dict_get d "sentiment") as [[| | | |s| |]|]; intros H;
    try contradiction; eauto.
Qed.

(** X7: on a dict whose sentiment is a string or missing, the validator
    returns, and what it returns is canonical: a title that is null or
    non-empty and trimmed, exactly three non-empty trimmed topics, and a
    sentiment among positive, neutral, negative. *)
Theorem validate_returns_canonical_on_text_sentiment
        (str_of : pyval -> string) (d : list (string * pyval))
        (Hsentiment : sentiment_is_text d) :
  exists c, _validate_metadata str_of (PDict d) = Ok c /\ canonical c.
Proof.
  destruct (sentiment_is_text_get d Hsentiment) as [s Hs].
  destruct (proj2 (validate_returns_iff str_of (PDict d))) as [c Hc].
  { exists d. split; [reflexivity | eauto]. }
  exists c. split; [exact Hc|].
  exact (validate_returns_canonical str_of (PDict d) c Hc).
Qed.

Lemma pad_topics_closed_form (kept : list string) :
  List.length kept <= 3 ->
  firstn 3 (pad_topics 3 kept)
  = (kept ++ map placeholder (seq (S (List.length kept)) (3 - List.length kept)))%list.
Proof.
  intros Hlen.
  destruct kept as [|a [|b [|c [|d rest]]]]; cbn in Hlen; try lia; reflexivity.
Qed.

(** X8: when the topics entry is a list, the cleaned topics are the first
    three of its items that are not blank, rendered as strings and trimmed,
    in their order, followed by the placeholders "Topic n" for the positions
    n that are left up to 3. *)
Theorem validate_topics_shape
        (str_of : pyval -> string) (d : list (string * pyval))
        (items : list pyval) (c : metadata)
        (Htopics : dict_get_default d "topics" (PList []) = PList items)
        (Hreturns : _validate_metadata str_of (PDict d) = Ok c) :
  let kept := firstn 3 (filter truthy
                          (map (fun topic => strip (py_str str_of topic)) items)) in
  topics c
  = (kept ++ map placeholder (seq (S (List.length kept)) (3 - List.length kept)))%list.
Proof.
  intros kept. unfold _validate_metadata in Hreturns. rewrite Htopics in Hreturns.
  destruct (dict_get_default d "sentiment" (PStr "neutral")); try discriminate Hreturns.
  cbn [bind] in Hreturns. injection Hreturns as <-. cbn [topics].
  apply pad_topics_closed_form. subst kept. apply firstn_le_length.
Qed.

End ValidatorShape.

Module MockFacts.
Import PyStr Py LLM PyStrFacts SummaryFacts ConfidenceFacts.

Lemma endswith_app (suf x : string) : endswith suf (x ++ suf) = true.
Proof.
  induction x as [|c r IH].
  - destruct suf as [|c s]; cbn; [reflexivity|].
    now rewrite Ascii.eqb_refl, String.eqb_refl.
  - cbn [append endswith]. rewrite IH. apply orb_true_r.
Qed.

(** X10: the offline summary of a text of more than 20 words ends with the
    marker that the confidence score looks for, so the score gives it the
    fallback term 0.1 and not the 0.3 of a provider summary. *)
Theorem offline_summary_scored_as_fallback (text : string) (keywords : list string)
        (Hlong : 20 < List.length (split text)) :
  endswith TextProc.fallback_marker (_mock_summary text) = true
  /\ TextProc.calculate_confidence_score text (_mock_summary text) keywords
     = TextProc.qmin 1 (TextProc.qmax 0
         (TextProc.score_before_quality text keywords + (1 # 10))%Q).
Proof.
  assert (Hmarked : endswith TextProc.fallback_marker (_mock_summary text) = true).
  { unfold _mock_summary.
    destruct (Nat.leb_spec (List.length (split text)) 20) as [Hle|_]; [lia|].
    change "... [Summary generated offline]"%string
      with ("... " ++ TextProc.fallback_marker)%string.
    rewrite <- !app_assoc_string. apply endswith_app. }
  split; [exact Hmarked|].
  now apply score_of_marked.
Qed.

End MockFacts.

(* ===================================================================== *)
(** ** More on the confidence score *)
(* ===================================================================== *)

Module ConfidenceBounds.
Import PyStr Py TextProc PyStrFacts ConfidenceFacts.

Local Open Scope Q_scope.

Lemma clamp_monotone (x y : Q) :
  x <= y -> qmin 1 (qmax 0 x) <= qmin 1 (qmax 0 y).
Proof.
  intros Hxy. unfold qmin, qmax.
  destruct (Qle_bool x 0) eqn:Ex; destruct (Qle_bool y 0) eqn:Ey;
    try apply Qle_bool_iff in Ex; try apply Qle_bool_iff in Ey;
    try apply Qle_bool_false in Ex; try apply Qle_bool_false in Ey;
    repeat match goal with
           | |- context [Qle_bool ?a ?b] =>
               let E := fresh "E" in
               destruct (Qle_bool a b) eqn:E;
               [apply Qle_bool_iff in E | apply Qle_bool_false in E]
           end; lra.
Qed.

Lemma keyword_term_monotone (n m : nat) :
  (n <= m)%nat ->
  (2 # 10) * (inject_Z (Z.of_nat n) / 3) <= (2 # 10) * (inject_Z (Z.of_nat m) / 3).
Proof.
  intros Hnm. assert (inject_Z (Z.of_nat n) <= inject_Z (Z.of_nat m)) as H.
  { unfold Qle. cbn. lia. }
  unfold Qdiv. set (a := inject_Z (Z.of_nat n)) in *. set (b := inject_Z (Z.of_nat m)) in *.
  assert (/ 3 == 1 # 3) as -> by reflexivity. lra.
Qed.

(** The score before clamping, as one sum. *)
Lemma score_as_sum (text summary : string) (keywords : list string) :
  exists base quality : Q,
    0 <= base /\ (1 # 10) <= quality /\ quality <= 3 # 10
    /\ calculate_confidence_score text summary keywords
       = qmin 1 (qmax 0
           (match keywords with
            | [] => base
            | _ => base + (2 # 10) * (inject_Z (Z.of_nat (List.length keywords)) / 3)
            end + quality))
    /\ forall keywords',
         calculate_confidence_score text summary keywords'
         = qmin 1 (qmax 0
             (match keywords' with
              | [] => base
              | _ => base + (2 # 10) * (inject_Z (Z.of_nat (List.length keywords')) / 3)
              end + quality)).
Proof.
  unfold calculate_confidence_score.
  set (base := if 50 <? List.length (split text)
               then (if truthy text && truthy summary then 0 + (3 # 10) else 0) + (2 # 10)
               else if 20 <? List.length (split text)
                    then (if truthy text && truthy summary then 0 + (3 # 10) else 0) + (1 # 10)
                    else if truthy text && truthy summary then 0 + (3 # 10) else 0).
  set (marked := truthy summary && negb (endswith fallback_marker summary)).
  exists base, (if marked then 3 # 10 else 1 # 10).
  assert (Hbase : 0 <= base).
  { subst base. destruct (50 <? List.length (split text))%nat, (20 <? List.length (split text))%nat,
      (truthy text && truthy summary); lra. }
  split; [exact Hbase|].
  split; [destruct marked; lra|].
  split; [destruct marked; lra|].
  split.
  - destruct marked, keywords; reflexivity.
  - intros keywords'. destruct marked, keywords'; reflexivity.
Qed.

(** X11: the score lies between 0.1 and 1 for all inputs; since it is never
    below 0.1, the lower clamp [max(0.0, score)] changes nothing. *)
Theorem confidence_score_range (text summary : string) (keywords : list string) :
  (1 # 10) <= calculate_confidence_score text summary keywords
  /\ calculate_confidence_score text summary keywords <= 1.
Proof.
  destruct (score_as_sum text summary keywords) as (base & quality & Hb & Hq1 & Hq3 & -> & _).
  pose proof (keyword_term_nonneg (List.length keywords)) as Hk.
  set (k := (2 # 10) * (inject_Z (Z.of_nat (List.length keywords)) / 3)) in *.
  assert (Hx : (1 # 10) <= match keywords with [] => base | _ => base + k end + quality).
  { destruct keywords; lra. }
  set (x := match keywords with [] => base | _ => base + k end + quality) in *.
  unfold qmin, qmax.
  destruct (Qle_bool x 0) eqn:E0;
    [apply Qle_bool_iff in E0; lra | apply Qle_bool_false in E0].
  destruct (Qle_bool 1 x) eqn:E1;
    [apply Qle_bool_iff in E1 | apply Qle_bool_false in E1]; lra.
Qed.

(** X12: with the text and the summary fixed, more keywords never lower the
    score. *)
Theorem confidence_score_monotone_in_keywords
        (text summary : string) (fewer more : list string)
        (Hcount : (List.length fewer <= List.length more)%nat) :
  calculate_confidence_score text summary fewer
  <= calculate_confidence_score text summary more.
Proof.
  destruct (score_as_sum text summary fewer) as (base & quality & Hb & Hq1 & Hq3 & _ & Hall).
  rewrite (Hall fewer), (Hall more). apply clamp_monotone.
  pose proof (keyword_term_monotone _ _ Hcount) as Hmono.
  pose proof (keyword_term_nonneg (List.length more)) as Hk.
  destruct fewer as [|f fs], more as [|m ms]; cbn [List.length] in *; try lia; try lra.
Qed.

End ConfidenceBounds.

(* ===================================================================== *)
(** ** More on keyword extraction *)
(* ===================================================================== *)

Module KeywordOrder.
Import PyStr Py TextProc PyStrFacts ListFacts KeywordFacts.

(** *** Counting keeps the words distinct *)

Lemma count_incr_keys_NoDup (word : string) (counts : list (string * Z)) :
  NoDup (map fst counts) -> NoDup (map fst (count_incr word counts)).
Proof.
  induction counts as [|[k n] rest IH]; intros Hnd; simpl.
  - constructor; [intros [] | constructor].
  - inversion Hnd as [|? ? Hk Hrest]; subst.
    destruct (String.eqb_spec k word) as [->|Hne]; simpl.
    + constructor; assumption.
    + constructor; [|now apply IH].
      intros Hin. destruct (count_incr_keys _ _ _ Hin) as [->|Hin']; [now apply Hne | now apply Hk].
Qed.

Lemma Counter_keys_NoDup (words : list string) : NoDup (map fst (Counter words)).
Proof.
  unfold Counter. assert (Hacc : NoDup (map fst (@nil (string * Z)))) by constructor.
  revert Hacc. generalize (@nil (string * Z)) as acc.
  induction words as [|w ws IH]; intros acc Hacc; simpl; [exact Hacc|].
  apply IH. now apply count_incr_keys_NoDup.
Qed.

(** *** Sorting permutes and orders *)

Lemma insert_desc_perm (x : string * Z) (l : list (string * Z)) :
  Permutation (x :: l) (insert_desc x l).
Proof.
  induction l as [|y ys IH]; simpl; [apply Permutation_refl|].
  destruct (snd x <? snd y)%Z; [|apply Permutation_refl].
  eapply Permutation_trans; [apply perm_swap|]. now apply perm_skip.
Qed.

Lemma sort_desc_perm (l : list (string * Z)) : Permutation l (sort_desc l).
Proof.
  induction l as [|x xs IH]; simpl; [constructor|].
  eapply Permutation_trans; [apply perm_skip, IH | apply insert_desc_perm].
Qed.

Lemma insert_desc_sorted (x : string * Z) (l : list (string * Z)) :
  StronglySorted by_score_desc l -> StronglySorted by_score_desc (insert_desc x l).
Proof.
  induction l as [|y ys IH]; intros Hs; simpl.
  - constructor; constructor.
  - inversion Hs as [|? ? Hys Hall]; subst.
    destruct (Z.ltb_spec (snd x) (snd y)) as [Hlt|Hge].
    + constructor; [now apply IH|].
      apply Forall_forall. intros z Hz.
      apply (Permutation_in _ (Permutation_sym (insert_desc_perm x ys))) in Hz.
      destruct Hz as [<-|Hz]; [unfold by_score_desc; lia|].
      rewrite Forall_forall in Hall. now apply Hall.
    + constructor; [exact Hs|].
      constructor; [unfold by_score_desc; lia|].
      apply Forall_forall. intros z Hz. rewrite Forall_forall in Hall.
      specialize (Hall z Hz). unfold by_score_desc in *. lia.
Qed.

Lemma sort_desc_sorted (l : list (string * Z)) : StronglySorted by_score_desc (sort_desc l).
Proof.
  induction l as [|x xs IH]; simpl; [constructor | now apply insert_desc_sorted].
Qed.

Lemma sorted_split (l1 l2 : list (string * Z)) :
  StronglySorted by_score_desc (l1 ++ l2) ->
  forall p q, In p l1 -> In q l2 -> (snd q <= snd p)%Z.
Proof.
  induction l1 as [|x xs IH]; intros Hs p q Hp Hq; [destruct Hp|].
  simpl in Hs. inversion Hs as [|? ? Hrest Hall]; subst.
  destruct Hp as [<-|Hp].
  - rewrite Forall_forall in Hall. apply (Hall q). apply in_or_app. now right.
  - now apply (IH Hrest p q).
Qed.

Lemma firstn_NoDup {A : Type} (n : nat) (l : list A) : NoDup l -> NoDup (firstn n l).
Proof.
  revert l. induction n as [|n IH]; intros [|x l] H; simpl; try constructor.
  - inversion H; subst. intros Hin. apply firstn_In in Hin. contradiction.
  - inversion H; subst. now apply IH.
Qed.

Lemma NoDup_keys_unique (l : list (string * Z)) (w : string) (a b : Z) :
  NoDup (map fst l) -> In (w, a) l -> In (w, b) l -> a = b.
Proof.
  induction l as [|[k n] rest IH]; intros Hnd Ha Hb; [destruct Ha|].
  simpl in Hnd. inversion Hnd as [|? ? Hk Hrest]; subst.
  destruct Ha as [Ha|Ha], Hb as [Hb|Hb].
  - congruence.
  - injection Ha as -> ->. exfalso. apply Hk. now apply (in_map fst _ (w, b)).
  - injection Hb as -> ->. exfalso. apply Hk. now apply (in_map fst _ (w, a)).
  - now apply IH.
Qed.

(** The words picked from a scored list are distinct. *)
Lemma top_words_NoDup (n : nat) (scored : list (string * Z)) :
  NoDup (map fst scored) -> NoDup (map fst (firstn n (sort_desc scored))).
Proof.
  intros Hnd. rewrite <- firstn_map. apply firstn_NoDup.
  apply (Permutation_NoDup (Permutation_map fst (sort_desc_perm scored)) Hnd).
Qed.

Lemma scored_words_keys_NoDup (stop_words : list string) (text : string) :
  NoDup (map fst (scored_words stop_words text)).
Proof.
  unfold scored_words. rewrite map_map. cbn [fst]. apply Counter_keys_NoDup.
Qed.

Lemma slice_list_firstn {A : Type} (k : Z) (l : list A) :
  exists n, slice_list k l = firstn n l.
Proof. unfold slice_list. destruct (k <? 0)%Z; eauto. Qed.

(** X13: no keyword is returned twice, whichever tier answers and whatever
    the tokenizer and the tagger do. *)
Theorem extract_keywords_distinct
        (stop_words : list string)
        (word_tokenize : string -> result (list string))
        (pos_tag : list string -> result (list (string * string)))
        (text : string) (top_k : Z) :
  NoDup (extract_keywords stop_words word_tokenize pos_tag text top_k).
Proof.
  unfold extract_keywords.
  destruct (negb (truthy text) || negb (truthy (strip text))); [constructor|].
  destruct (_extract_with_nltk stop_words word_tokenize pos_tag text top_k)
    as [keywords|e] eqn:E.
  - unfold _extract_with_nltk in E.
    destruct (match word_tokenize (lower text) with
              | Raise LookupError => Ok (findall_words (lower text))
              | r => r
              end) as [tokens|e]; [|discriminate E]. cbn [bind] in E.
    match type of E with
    | match ?nouns with _ => _ end = _ => destruct nouns as [|noun rest]
    end; injection E as <-; [constructor|].
    unfold most_common. apply top_words_NoDup, Counter_keys_NoDup.
  - rewrite regex_tier_is_sorted_scores.
    destruct (slice_list_firstn top_k (sort_desc (scored_words stop_words text))) as [n ->].
    apply top_words_NoDup, scored_words_keys_NoDup.
Qed.

(** The first [n] of a sorted scored list are its best-scored entries. *)
Lemma top_of_sorted (scored : list (string * Z)) (n : nat)
      (chosen other : string) (chosen_score other_score : Z) :
  NoDup (map fst scored) ->
  In (chosen, chosen_score) scored -> In (other, other_score) scored ->
  In chosen (map fst (firstn n (sort_desc scored))) ->
  ~ In other (map fst (firstn n (sort_desc scored))) ->
  (other_score <= chosen_score)%Z.
Proof.
  intros Hnd Hchosen Hother Hin Hout.
  set (sorted := sort_desc scored) in *.
  pose proof (sort_desc_sorted scored) as Hsorted.
  fold sorted in Hsorted. rewrite <- (firstn_skipn n sorted) in Hsorted.
  apply in_map_iff in Hin as ([w s] & Hw & Hp). cbn [fst] in Hw. subst w.
  assert (s = chosen_score) as ->.
  { apply (NoDup_keys_unique scored chosen s chosen_score Hnd); [|exact Hchosen].
    apply sort_desc_In. now apply firstn_In in Hp. }
  assert (Hq : In (other, other_score) (skipn n sorted)).
  { assert (Hs : In (other, other_score) sorted).
    { apply (Permutation_in _ (sort_desc_perm _) Hother). }
    rewrite <- (firstn_skipn n sorted) in Hs. apply in_app_or in Hs as [Hs|Hs]; [|exact Hs].
    exfalso. apply Hout. now apply (in_map fst _ (other, other_score)). }
  exact (sorted_split _ _ Hsorted _ _ Hp Hq).
Qed.

(** X14: the regex tier returns the best-scored words: for a count
    [top_k >= 0], a word that is left out never has a higher score than a
    word that is returned. *)
Theorem regex_tier_returns_top_scores
        (stop_words : list string) (text : string) (top_k : Z)
        (chosen other : string) (chosen_score other_score : Z)
        (Hk : (0 <= top_k)%Z)
        (Hchosen : In (chosen, chosen_score) (scored_words stop_words text))
        (Hother : In (other, other_score) (scored_words stop_words text))
        (Hin : In chosen (_extract_with_regex stop_words text top_k))
        (Hout : ~ In other (_extract_with_regex stop_words text top_k)) :
  (other_score <= chosen_score)%Z.
Proof.
  rewrite regex_tier_is_sorted_scores in Hin, Hout.
  unfold slice_list in Hin, Hout.
  destruct (Z.ltb_spec top_k 0) as [Hneg|_]; [lia|].
  exact (top_of_sorted _ _ _ _ _ _ (scored_words_keys_NoDup stop_words text)
                       Hchosen Hother Hin Hout).
Qed.

(** *** Counting counts *)

Lemma count_of_incr (word w : string) (counts : list (string * Z)) :
  count_of (count_incr word counts) w
  = (count_of counts w + (if String.eqb word w then 1 else 0))%Z.
Proof.
  induction counts as [|[k n] rest IH]; simpl.
  - destruct (String.eqb word w); lia.
  - destruct (String.eqb_spec k word) as [->|Hne]; simpl.
    + destruct (String.eqb word w); lia.
    + destruct (String.eqb_spec k w) as [->|Hkw].
      * destruct (String.eqb_spec word w) as [->|_]; [contradiction | lia].
      * exact IH.
Qed.

Lemma count_of_fold (words : list string) (w : string) :
  forall acc,
    count_of (fold_left (fun counts word => count_incr word counts) words acc) w
    = (count_of acc w + Z.of_nat (count_occ string_dec words w))%Z.
Proof.
  induction words as [|x xs IH]; intros acc; simpl; [lia|].
  rewrite IH, count_of_incr.
  destruct (string_dec x w) as [->|Hne].
  - rewrite String.eqb_refl. lia.
  - destruct (String.eqb_spec x w); [contradiction | lia].
Qed.

Lemma count_of_entry (counts : list (string * Z)) (w : string) (n : Z) :
  NoDup (map fst counts) -> In (w, n) counts -> count_of counts w = n.
Proof.
  induction counts as [|[k m] rest IH]; intros Hnd Hin; [destruct Hin|].
  simpl in Hnd. inversion Hnd as [|? ? Hk Hrest]; subst. simpl.
  destruct Hin as [Heq|Hin].
  - injection Heq as -> ->. now rewrite String.eqb_refl.
  - destruct (String.eqb_spec k w) as [->|_]; [|now apply IH].
    exfalso. apply Hk. now apply (in_map fst _ (w, n)).
Qed.

(** An entry of a [Counter] holds the number of occurrences of its word. *)
Lemma Counter_counts (words : list string) (w : string) (n : Z) :
  In (w, n) (Counter words) -> n = Z.of_nat (count_occ string_dec words w).
Proof.
  intros Hin. rewrite <- (count_of_entry _ _ _ (Counter_keys_NoDup words) Hin).
  unfold Counter. now rewrite count_of_fold.
Qed.

Lemma count_incr_has (word : string) (counts : list (string * Z)) :
  In word (map fst (count_incr word counts)).
Proof.
  induction counts as [|[k n] rest IH]; simpl; [now left|].
  destruct (String.eqb_spec k word) as [->|_]; simpl; [now left | now right].
Qed.

Lemma count_incr_keeps (word w : string) (counts : list (string * Z)) :
  In w (map fst counts) -> In w (map fst (count_incr word counts)).
Proof.
  induction counts as [|[k n] rest IH]; simpl; [tauto|].
  destruct (String.eqb k word); simpl; intros [H|H]; auto.
Qed.

Lemma Counter_has_from (words : list string) (w : string) :
  forall acc,
    In w words \/ In w (map fst acc) ->
    In w (map fst (fold_left (fun counts word => count_incr word counts) words acc)).
Proof.
  induction words as [|x xs IH]; intros acc H; simpl.
  - destruct H as [[]|H]. exact H.
  - apply IH. destruct H as [[->|H]|H]; [right; apply count_incr_has | now left
                                        | right; now apply count_incr_keeps].
Qed.

(** Every word that occurs has an entry. *)
Lemma Counter_has (words : list string) (w : string) :
  In w words -> exists n, In (w, n) (Counter words).
Proof.
  intros H. assert (Hk : In w (map fst (Counter words))).
  { apply Counter_has_from. now left. }
  apply in_map_iff in Hk as ([k n] & Heq & Hin). cbn in Heq. subst k. eauto.
Qed.

Lemma nltk_tier_from_nouns
      (stop_words : list string)
      (word_tokenize : string -> result (list string))
      (pos_tag : list string -> result (list (string * string)))
      (text : string) (top_k : Z) :
  _extract_with_nltk stop_words word_tokenize pos_tag text top_k
  = bind (nltk_nouns stop_words word_tokenize pos_tag text)
         (fun nouns => Ok match nouns with
                          | [] => []
                          | _ => map fst (most_common top_k (Counter nouns))
                          end).
Proof.
  unfold _extract_with_nltk, nltk_nouns.
  destruct (match word_tokenize (lower text) with
            | Raise LookupError => Ok (findall_words (lower text))
            | r => r
            end) as [tokens|e]; [|reflexivity].
  cbn [bind].
  match goal with |- match ?nouns with _ => _ end = _ => destruct nouns end; reflexivity.
Qed.

(** X21: the tagging tier returns the most frequent nouns: for a count
    [top_k >= 0], a noun that is left out never occurs more often among the
    nouns of the text than a keyword that is returned. *)
Theorem nltk_tier_returns_most_frequent
        (stop_words : list string)
        (word_tokenize : string -> result (list string))
        (pos_tag : list string -> result (list (string * string)))
        (text : string) (top_k : Z)
        (nouns keywords : list string) (chosen other : string)
        (Hk : (0 <= top_k)%Z)
        (Hnouns : nltk_nouns stop_words word_tokenize pos_tag text = Ok nouns)
        (Hkeywords : _extract_with_nltk stop_words word_tokenize pos_tag text top_k
                     = Ok keywords)
        (Hin : In chosen keywords)
        (Hother : In other nouns)
        (Hout : ~ In other keywords) :
  In chosen nouns
  /\ count_occ string_dec nouns other <= count_occ string_dec nouns chosen.
Proof.
  rewrite nltk_tier_from_nouns, Hnouns in Hkeywords. cbn [bind] in Hkeywords.
  destruct nouns as [|noun rest]; [destruct Hother|].
  injection Hkeywords as <-. unfold most_common in Hin, Hout.
  set (ns := noun :: rest) in *.
  assert (Hc : exists c, In (chosen, c) (Counter ns)).
  { apply in_map_iff in Hin as ([w c] & Hw & Hp). cbn in Hw. subst w.
    exists c. apply sort_desc_In. now apply firstn_In in Hp. }
  destruct Hc as [c Hc]. destruct (Counter_has ns other Hother) as [o Ho].
  pose proof (top_of_sorted _ _ _ _ _ _ (Counter_keys_NoDup ns) Hc Ho Hin Hout) as Hle.
  rewrite (Counter_counts _ _ _ Hc), (Counter_counts _ _ _ Ho) in Hle.
  split; [|lia].
  apply Counter_keys. now apply (in_map fst _ (chosen, c)).
Qed.

(** *** Ties *)

Lemma insert_desc_filter (s : Z) (x : string * Z) (l : list (string * Z)) :
  filter (fun p => (snd p =? s)%Z) (insert_desc x l)
  = filter (fun p => (snd p =? s)%Z) (x :: l).
Proof.
  induction l as [|y ys IH]; [reflexivity|].
  cbn [insert_desc]. destruct (Z.ltb_spec (snd x) (snd y)) as [Hlt|Hge]; [|reflexivity].
  cbn [filter] in *. rewrite IH.
  destruct (Z.eqb_spec (snd x) s) as [Hx|Hx], (Z.eqb_spec (snd y) s) as [Hy|Hy];
    try reflexivity. lia.
Qed.

Lemma sort_desc_filter (s : Z) (l : list (string * Z)) :
  filter (fun p => (snd p =? s)%Z) (sort_desc l) = filter (fun p => (snd p =? s)%Z) l.
Proof.
  induction l as [|x xs IH]; [reflexivity|].
  cbn [sort_desc fold_right]. rewrite insert_desc_filter.
  cbn [filter]. fold (sort_desc xs). now rewrite IH.
Qed.

Lemma filter_firstn_prefix {A : Type} (f : A -> bool) (n : nat) (l : list A) :
  exists m, filter f (firstn n l) = firstn m (filter f l).
Proof.
  revert l. induction n as [|n IH]; intros [|x l]; try (now exists 0).
  destruct (IH l) as [m Hm]. cbn [firstn filter].
  destruct (f x); [exists (S m); cbn; now rewrite Hm | now exists m].
Qed.

Lemma count_incr_keys_order (word : string) (counts : list (string * Z)) :
  map fst (count_incr word counts)
  = if mem word (map fst counts) then map fst counts
    else (map fst counts ++ [word])%list.
Proof.
  unfold mem. induction counts as [|[k n] rest IH]; [reflexivity|].
  cbn [count_incr map fst existsb].
  rewrite (String.eqb_sym word k).
  destruct (String.eqb k word); [reflexivity|].
  cbn [map fst orb]. rewrite IH.
  destruct (existsb (String.eqb word) (map fst rest)); reflexivity.
Qed.

Lemma Counter_keys_order_from (words : list string) :
  forall acc,
    map fst (fold_left (fun counts word => count_incr word counts) words acc)
    = fold_left (fun seen word => if mem word seen then seen else (seen ++ [word])%list)
                words (map fst acc).
Proof.
  induction words as [|w ws IH]; intros acc; [reflexivity|].
  cbn [fold_left]. rewrite IH, count_incr_keys_order. reflexivity.
Qed.

(** A [Counter] lists the words in the order of their first occurrence. *)
Lemma Counter_keys_order (words : list string) :
  map fst (Counter words) = first_seen words.
Proof. apply Counter_keys_order_from. Qed.

(** X9: ties go to the word seen first.  The regex tier scores the distinct
    words in the order of their first occurrence in the text, and the
    chosen entries of any one score are the first ones of that score in
    this order, in this order. *)
Theorem regex_tier_ties_first_seen
        (stop_words : list string) (text : string) (top_k score : Z) :
  map fst (scored_words stop_words text)
  = first_seen (filter (fun word => negb (mem word stop_words))
                       (findall_alpha3 (lower text)))
  /\ _extract_with_regex stop_words text top_k
     = map fst (slice_list top_k (sort_desc (scored_words stop_words text)))
  /\ exists m,
       filter (fun p => (snd p =? score)%Z)
              (slice_list top_k (sort_desc (scored_words stop_words text)))
       = firstn m (filter (fun p => (snd p =? score)%Z) (scored_words stop_words text)).
Proof.
  split; [|split].
  - unfold scored_words. rewrite map_map. cbn [fst]. apply Counter_keys_order.
  - apply regex_tier_is_sorted_scores.
  - destruct (slice_list_firstn top_k (sort_desc (scored_words stop_words text)))
      as [n ->].
    destruct (filter_firstn_prefix (fun p => (snd p =? score)%Z) n
                (sort_desc (scored_words stop_words text))) as [m Hm].
    exists m. now rewrite Hm, sort_desc_filter.
Qed.

End KeywordOrder.

(* ===================================================================== *)
(** ** Text cleaning *)
(* ===================================================================== *)

Module CleanFacts.
Import PyStr Py TextProc PyStrFacts SummaryFacts.

Example clean_text_ex :
  clean_text "Hello, world! (ok) x_y - z; q: r? 50% <tag>"
  = "Hello, world! (ok) x_y - z; q: r? 50   tag".
Proof. reflexivity. Qed.

(** One pass can leave runs of blanks, which a second pass collapses. *)
Example clean_text_not_idempotent :
  clean_text "a @ b" = "a   b" /\ clean_text (clean_text "a @ b") = "a b".
Proof. split; reflexivity. Qed.

Local Abbreviation nonblank := (fun c => negb (is_space c)).
Local Abbreviation blank_is_space := (fun c => negb (is_space c) || Ascii.eqb c " ").
Local Abbreviation scrub := (fun c => if kept_char c then c else " "%char).

(** *** Stripping keeps what holds of all characters *)

Lemma lstrip_all (q : ascii -> bool) (s : string) :
  all_chars q s = true -> all_chars q (lstrip s) = true.
Proof.
  induction s as [|c r IH]; simpl; [reflexivity|].
  intros H. destruct (is_space c); [|exact H].
  apply andb_true_iff in H as [_ Hr]. now apply IH.
Qed.

Lemma rstrip_all (q : ascii -> bool) (s : string) :
  all_chars q s = true -> all_chars q (rstrip s) = true.
Proof.
  induction s as [|c r IH]; simpl; [reflexivity|].
  intros H. apply andb_true_iff in H as [Hc Hr].
  destruct (is_space c && is_empty (rstrip r)); [reflexivity|].
  simpl. now rewrite Hc, IH.
Qed.

Lemma strip_all (q : ascii -> bool) (s : string) :
  all_chars q s = true -> all_chars q (strip s) = true.
Proof. intros H. now apply rstrip_all, lstrip_all. Qed.

Lemma map_chars_all (q : ascii -> bool) (f : ascii -> ascii) (s : string) :
  (forall c, q (f c) = true) -> all_chars q (map_chars f s) = true.
Proof.
  intros Hf. induction s as [|c r IH]; simpl; [reflexivity|]. now rewrite Hf, IH.
Qed.

Lemma map_chars_preserves (q : ascii -> bool) (f : ascii -> ascii) (s : string) :
  (forall c, q c = true -> q (f c) = true) ->
  all_chars q s = true -> all_chars q (map_chars f s) = true.
Proof.
  intros Hf. induction s as [|c r IH]; simpl; [reflexivity|].
  intros H. apply andb_true_iff in H as [Hc Hr]. now rewrite (Hf c Hc), IH.
Qed.

Lemma scrub_kept (c : ascii) : kept_char (scrub c) = true.
Proof. cbv beta. destruct (kept_char c) eqn:E; [exact E | reflexivity]. Qed.

Lemma scrub_blank (c : ascii) : blank_is_space c = true -> blank_is_space (scrub c) = true.
Proof. cbv beta. intros H. destruct (kept_char c); [exact H | reflexivity]. Qed.

Lemma map_chars_fixed (s : string) :
  all_chars kept_char s = true -> map_chars scrub s = s.
Proof.
  induction s as [|c r IH]; simpl; [reflexivity|].
  intros H. apply andb_true_iff in H as [Hc Hr]. now rewrite Hc, IH.
Qed.

(** *** Words and joining *)

Lemma runs_from_words (p : ascii -> bool) (s cur : string) :
  all_chars p cur = true ->
  Forall (fun w => w <> ""%string /\ all_chars p w = true) (runs_from p cur s).
Proof.
  revert cur. induction s as [|c r IH]; intros cur Hcur; simpl.
  - destruct cur; simpl; constructor; [split; [discriminate | exact Hcur] | constructor].
  - destruct (p c) eqn:Hc.
    + apply IH. rewrite all_chars_app, Hcur. simpl. now rewrite Hc.
    + destruct cur; simpl.
      * now apply IH.
      * constructor; [split; [discriminate | exact Hcur] | now apply IH].
Qed.

Lemma split_words (s : string) :
  Forall (fun w => w <> ""%string /\ all_chars nonblank w = true) (split s).
Proof. now apply runs_from_words. Qed.

Lemma join_all (q : ascii -> bool) (sep : string) (ws : list string) :
  all_chars q sep = true -> Forall (fun w => all_chars q w = true) ws ->
  all_chars q (join sep ws) = true.
Proof.
  intros Hsep. induction ws as [|w ws IH]; intros H; [reflexivity|].
  inversion H as [|? ? Hw Hws]; subst.
  destruct ws as [|w2 ws']; [exact Hw|].
  cbn [join]. rewrite !all_chars_app, Hw, Hsep. simpl. now apply IH.
Qed.

Lemma runs_from_through (p : ascii -> bool) (w rest cur : string) :
  all_chars p w = true ->
  runs_from p cur (w ++ rest) = runs_from p (cur ++ w) rest.
Proof.
  revert cur. induction w as [|c r IH]; intros cur H; simpl in *.
  - now rewrite app_nil_r_string.
  - apply andb_true_iff in H as [Hc Hr]. rewrite Hc, (IH _ Hr).
    now rewrite app_assoc_string.
Qed.

Lemma runs_from_break (p : ascii -> bool) (c : ascii) (rest cur : string) :
  p c = false -> cur <> ""%string ->
  runs_from p cur (String c rest) = cur :: runs_from p "" rest.
Proof.
  intros Hc Hcur. cbn [runs_from]. rewrite Hc.
  destruct cur; [contradiction | reflexivity].
Qed.

(** Splitting undoes joining by single blanks. *)
Lemma split_join (ws : list string) :
  Forall (fun w => w <> ""%string /\ all_chars nonblank w = true) ws ->
  split (join " " ws) = ws.
Proof.
  induction ws as [|w ws IH]; intros H; [reflexivity|].
  inversion H as [|? ? [Hne Hw] Hws]; subst.
  specialize (IH Hws). unfold split, runs in *.
  destruct ws as [|w2 ws'].
  - cbn [join]. rewrite <- (app_nil_r_string w) at 1.
    rewrite runs_from_through by exact Hw. cbn.
    destruct w; [contradiction | reflexivity].
  - remember (join " " (w2 :: ws')) as rest eqn:Hrest.
    assert (Hjoin : join " " (w :: w2 :: ws') = (w ++ String " " rest)%string).
    { subst rest. reflexivity. }
    rewrite Hjoin, runs_from_through by exact Hw. cbn [append].
    rewrite runs_from_break; [now rewrite IH | reflexivity | exact Hne].
Qed.

Lemma rstrip_nonblank (s : string) : all_chars nonblank s = true -> rstrip s = s.
Proof.
  induction s as [|c r IH]; simpl; [reflexivity|].
  intros H. apply andb_true_iff in H as [Hc Hr]. apply negb_true_iff in Hc.
  rewrite Hc, (IH Hr). reflexivity.
Qed.

Lemma rstrip_before_word (x w : string) :
  w <> ""%string -> all_chars nonblank w = true -> rstrip (x ++ w) = (x ++ w)%string.
Proof.
  intros Hne Hw. induction x as [|c r IH]; simpl.
  - now apply rstrip_nonblank.
  - rewrite IH. destruct (r ++ w)%string eqn:E.
    + destruct r; [simpl in E; contradiction | discriminate E].
    + simpl. now rewrite andb_false_r.
Qed.

Lemma join_ends_with_word (ws : list string) :
  ws <> [] -> exists x w, join " " ws = (x ++ w)%string /\ In w ws.
Proof.
  induction ws as [|w ws IH]; intros Hne; [contradiction|].
  destruct ws as [|w2 ws'].
  - exists ""%string, w. split; [reflexivity | now left].
  - destruct (IH ltac:(discriminate)) as (x & v & Hj & Hin).
    exists (w ++ " " ++ x)%string, v. split; [|now right].
    change (join " " (w :: w2 :: ws')) with (w ++ " " ++ join " " (w2 :: ws'))%string.
    rewrite Hj. now rewrite !app_assoc_string.
Qed.

Lemma strip_join_words (ws : list string) :
  Forall (fun w => w <> ""%string /\ all_chars nonblank w = true) ws ->
  strip (join " " ws) = join " " ws.
Proof.
  intros H. destruct ws as [|w ws]; [reflexivity|].
  unfold strip.
  assert (Hl : lstrip (join " " (w :: ws)) = join " " (w :: ws)).
  { inversion H as [|? ? [Hne Hw] _]; subst.
    destruct w as [|c r]; [contradiction|].
    simpl in Hw. apply andb_true_iff in Hw as [Hc _]. apply negb_true_iff in Hc.
    destruct ws; cbn [join append lstrip]; now rewrite Hc. }
  rewrite Hl.
  destruct (join_ends_with_word (w :: ws) ltac:(discriminate)) as (x & v & -> & Hin).
  rewrite Forall_forall in H. destruct (H v Hin) as [Hne Hv].
  now apply rstrip_before_word.
Qed.

(** On a text made of kept characters, cleaning is re-spacing. *)
Lemma clean_text_of_kept (s : string) :
  all_chars kept_char s = true -> clean_text s = join " " (split s).
Proof.
  intros Hs. unfold clean_text. destruct s as [|c r]; [reflexivity|].
  cbn [truthy is_empty negb].
  assert (Hj : all_chars kept_char (join " " (split (String c r))) = true).
  { apply join_all; [reflexivity|]. now apply runs_all. }
  rewrite (map_chars_fixed _ Hj). apply strip_join_words, split_words.
Qed.

Lemma clean_text_kept (text : string) : all_chars kept_char (clean_text text) = true.
Proof.
  unfold clean_text. destruct (negb (truthy text)); [reflexivity|].
  apply strip_all, map_chars_all, scrub_kept.
Qed.

(** X15: the cleaned text holds only word characters, blanks and the
    punctuation . , ! ? ; : - ( ); its only blank character is the plain
    space (no tab, no line break); and it has no blank at either end. *)
Theorem clean_text_alphabet (text : string) :
  all_chars kept_char (clean_text text) = true
  /\ all_chars (fun c => negb (is_space c) || Ascii.eqb c " ") (clean_text text) = true
  /\ strip (clean_text text) = clean_text text.
Proof.
  split; [apply clean_text_kept|]. split.
  - unfold clean_text. destruct (negb (truthy text)); [reflexivity|].
    apply strip_all, map_chars_preserves; [exact scrub_blank|].
    apply join_all; [reflexivity|].
    pose proof (split_words text) as Hw.
    apply Forall_forall. intros w Hin. rewrite Forall_forall in Hw.
    destruct (Hw w Hin) as [_ Hall].
    apply (all_chars_impl nonblank); [|exact Hall].
    intros c Hc. now rewrite Hc.
  - unfold clean_text. destruct (negb (truthy text)); [reflexivity|].
    apply strip_idem.
Qed.

(** X16: cleaning is not idempotent, but it settles after two passes: a
    third pass changes nothing. *)
Theorem clean_text_settles (text : string) :
  clean_text (clean_text (clean_text text)) = clean_text (clean_text text).
Proof.
  pose proof (clean_text_kept text) as H1.
  rewrite (clean_text_of_kept _ H1).
  set (once := clean_text text) in *.
  assert (H2 : all_chars kept_char (join " " (split once)) = true).
  { apply join_all; [reflexivity|]. now apply runs_all. }
  rewrite (clean_text_of_kept _ H2).
  now rewrite (split_join _ (split_words once)).
Qed.

End CleanFacts.

(* ===================================================================== *)
(** ** More on the search endpoint *)
(* ===================================================================== *)

Module SearchBounds.
Import PyStr Py Search SearchFacts.

Local Open Scope Q_scope.

Lemma matches_nonneg (needle : string) (items : list string) :
  (0 <= matches needle items)%Z.
Proof. rewrite matches_is_count. lia. Qed.

(** X17: the score of a search result lies between 0.5 and 1, for every row
    and every combination of filters. *)
Theorem search_confidence_range (topic keyword sentiment_param : option string)
        (analysis : Analysis) :
  (5 # 10) <= confidence topic keyword sentiment_param analysis
  /\ confidence topic keyword sentiment_param analysis <= 1.
Proof.
  unfold confidence.
  assert (Ht : 0 <= inject_Z (matches (param_str topic) (or_empty (topics analysis)))).
  { pose proof (matches_nonneg (param_str topic) (or_empty (topics analysis))).
    unfold Qle. cbn. lia. }
  assert (Hk : 0 <= inject_Z (matches (param_str keyword) (or_empty (keywords analysis)))).
  { pose proof (matches_nonneg (param_str keyword) (or_empty (keywords analysis))).
    unfold Qle. cbn. lia. }
  set (a := inject_Z (matches (param_str topic) (or_empty (topics analysis)))) in *.
  set (b := inject_Z (matches (param_str keyword) (or_empty (keywords analysis)))) in *.
  destruct (given topic && nonempty (topics analysis));
    destruct (given keyword && nonempty (keywords analysis));
    destruct (given sentiment_param
              && String.eqb (sentiment analysis) (lower (param_str sentiment_param)));
    match goal with
    | |- context [Qle_bool ?x 1] =>
        let E := fresh "E" in
        destruct (Qle_bool x 1) eqn:E; [apply Qle_bool_iff in E|]
    end; lra.
Qed.

(** X18: the search endpoint answers 400 exactly when no filter is given,
    an empty string counting as no filter. *)
Theorem search_rejects_exactly_without_filter
        (topic keyword sentiment_param : option string) (limit : Z) :
  search_analyses topic keyword sentiment_param limit
  = HTTPException 400
      "At least one search parameter (topic, keyword, or sentiment) is required"
  <-> given topic || given keyword || given sentiment_param = false.
Proof.
  unfold search_analyses.
  destruct (given topic), (given keyword), (given sentiment_param);
    split; intros H; try reflexivity; discriminate H.
Qed.

End SearchBounds.

(* ===================================================================== *)
(** ** The analysis endpoint *)
(* ===================================================================== *)

Module AnalyzeFacts.
Import PyStr Py PyStrFacts.
Import Main.

Example analyze_whitespace_only :
  analyze_text None LLM.always_down LLM.str_sample LLM.json_sample
    TextProc.basic_stop_words TextProc.no_tokenizer TextProc.no_tagger sample_store
    "   
	   "
  = Search.HTTPException 400 "Empty text input provided".
Proof. reflexivity. Qed.

Example analyze_offline :
  analyze_text None LLM.always_down LLM.str_sample LLM.json_sample
    TextProc.basic_stop_words TextProc.no_tokenizer TextProc.no_tagger sample_store
    "  Climate change poses significant challenges to global agriculture. "
  = Search.Status200
      {| resp_id := 1;
         resp_text := "Climate change poses significant challenges to global agriculture.";
         resp_summary := "Climate change poses significant challenges to global agriculture.";
         resp_title := None;
         resp_topics := ["General"; "Content"; "Information"];
         resp_sentiment := "neutral";
         resp_keywords := ["climate"; "change"; "poses"];
         resp_created_at := 1700000000 |}.
Proof. reflexivity. Qed.

Section WithEnvironment.

Variable api_key : option string.
Variable openai : LLM.provider.
Variable str_of : pyval -> string.
Variable json_loads : string -> result pyval.
Variable stop_words : list string.
Variable word_tokenize : string -> result (list string).
Variable pos_tag : list string -> result (list (string * string)).
Variable create_analysis : string -> AnalysisResult -> result Search.Analysis.

Local Abbreviation analyze :=
  (analyze_text api_key openai str_of json_loads stop_words word_tokenize pos_tag
                create_analysis).

Lemma blank_request (request_text : string) :
  negb (truthy request_text) || negb (truthy (strip request_text)) = true
  <-> strip request_text = ""%string.
Proof.
  split.
  - intros H. apply orb_true_iff in H as [H|H].
    + destruct request_text; [reflexivity | discriminate H].
    + destruct (strip request_text); [reflexivity | discriminate H].
  - intros H. rewrite H. apply orb_true_r.
Qed.



(** X19: the analysis endpoint answers 400 exactly for a text that is empty
    once stripped (empty, or blanks only). *)
Theorem analyze_rejects_exactly_blank_text (request_text : string) :
  analyze_text api_key openai str_of json_loads stop_words word_tokenize pos_tag
               create_analysis request_text
  = Search.HTTPException 400 "Empty text input provided"
  <-> strip request_text = ""%string.
Proof.
  rewrite <- blank_request. unfold analyze_text.
  destruct (negb (truthy request_text) || negb (truthy (strip request_text))).
  - split; reflexivity.
  - split; [|discriminate].
    destruct (LLM.generate_summary _ _) as [[summary|e1] tr1]; cbn; [|discriminate].
    destruct (LLM.extract_metadata _ _ _ _) as [[metadata|e2] tr2]; cbn; [|discriminate].
    destruct (create_analysis _ _); discriminate.
Qed.


End WithEnvironment.

End AnalyzeFacts.

(* ===================================================================== *)
(** ** The backoff schedule *)
(* ===================================================================== *)

Module BackoffSchedule.
Import PyStr Py LLM.

Example backoff_schedule_3 :
  backoff_schedule 0 3 = [ECall 0; ESleep 1; ECall 1; ESleep 2; ECall 2].
Proof. reflexivity. Qed.

Lemma api_loop_schedule (script : nat -> outcome) (retries : nat) :
  (forall j, j < retries -> exists e, script j = Raises e /\ e <> TimeoutError) ->
  forall remaining attempt,
    attempt + remaining = retries ->
    snd (api_loop script retries attempt remaining) = backoff_schedule attempt remaining.
Proof.
  intros Hfail. induction remaining as [|n IH]; intros attempt Hsum; [reflexivity|].
  cbn [api_loop]. destruct (Hfail attempt ltac:(lia)) as (e & He & Hne). rewrite He.
  destruct (Nat.eqb_spec attempt (retries - 1)) as [Hlast|Hmore].
  - assert (n = 0) as -> by lia. destruct e; reflexivity.
  - specialize (IH (S attempt) ltac:(lia)).
    destruct (api_loop script retries (S attempt) n) as [r tr]. cbn [snd] in IH.
    destruct n as [|n']; [lia|].
    destruct e; try (exfalso; now apply Hne); cbn [snd]; now rewrite IH.
Qed.

Lemma backoff_schedule_slept (remaining attempt : nat) :
  0 < remaining ->
  slept (backoff_schedule attempt remaining)
  = (2 ^ Z.of_nat (attempt + remaining - 1) - 2 ^ Z.of_nat attempt)%Z.
Proof.
  revert attempt. induction remaining as [|n IH]; intros attempt Hpos; [lia|].
  destruct n as [|n'].
  - cbn [backoff_schedule slept]. replace (attempt + 1 - 1) with attempt by lia. lia.
  - change (backoff_schedule attempt (S (S n')))
      with (ECall attempt :: ESleep (2 ^ Z.of_nat attempt)
              :: backoff_schedule (S attempt) (S n')).
    cbn [slept]. rewrite IH by lia.
    replace (S attempt + S n' - 1) with (attempt + S (S n') - 1) by lia.
    rewrite (Nat2Z.inj_succ attempt), Z.pow_succ_r by lia. lia.
Qed.

(** X5: when every attempt fails with an error that is no timeout, the loop
    sleeps 1, 2, 4, ... seconds between the attempts and not after the last
    one: [2^(retries-1) - 1] seconds in all, the most it can sleep. *)
Theorem errors_follow_backoff_schedule (retries : nat) (openai : provider) (p : prompt)
        (Hpos : 0 < retries)
        (Hfail : forall j, j < retries ->
                           exists e, openai p j = Raises e /\ e <> TimeoutError) :
  snd (_make_api_call retries openai p) = backoff_schedule 0 retries
  /\ slept (snd (_make_api_call retries openai p)) = (2 ^ Z.of_nat (retries - 1) - 1)%Z.
Proof.
  unfold _make_api_call.
  rewrite (api_loop_schedule (openai p) retries Hfail retries 0 eq_refl).
  split; [reflexivity|].
  rewrite (backoff_schedule_slept retries 0 Hpos). cbn [Nat.add]. reflexivity.
Qed.

End BackoffSchedule.

(* ===================================================================== *)
(** ** More theorems at concrete inputs *)
(* ===================================================================== *)

Module MoreInstances.
Import PyStr Py.

Lemma first_reply_wins_witness :
  fst (LLM._make_api_call 3 LLM.error_then_reply (LLM.SummaryPrompt "x")) = Ok (Some "ok")
  /\ LLM.calls (snd (LLM._make_api_call 3 LLM.error_then_reply (LLM.SummaryPrompt "x"))) = 2.
Proof.
  apply (RetryBounds.first_reply_wins 3 LLM.error_then_reply (LLM.SummaryPrompt "x") 1 "ok").
  - lia.
  - intros j Hj. exists (ProviderError "connection reset").
    destruct j as [|j]; [reflexivity | lia].
  - reflexivity.
Defined.

Lemma exhaustion_raises_last_error_witness :
  fst (LLM._make_api_call 3 LLM.always_timing_out (LLM.SummaryPrompt "x"))
  = Raise (ExceptionMsg "API call timed out after all retries")
  /\ LLM.calls (snd (LLM._make_api_call 3 LLM.always_timing_out (LLM.SummaryPrompt "x"))) = 3.
Proof.
  apply (RetryBounds.exhaustion_raises_last_error
           3 LLM.always_timing_out (LLM.SummaryPrompt "x") TimeoutError).
  - lia.
  - intros j _. exists TimeoutError. reflexivity.
  - reflexivity.
Defined.

Lemma errors_follow_backoff_schedule_witness :
  snd (LLM._make_api_call 3 LLM.always_down (LLM.SummaryPrompt "x"))
  = [LLM.ECall 0; LLM.ESleep 1; LLM.ECall 1; LLM.ESleep 2; LLM.ECall 2]
  /\ LLM.slept (snd (LLM._make_api_call 3 LLM.always_down (LLM.SummaryPrompt "x"))) = 3%Z.
Proof.
  apply (BackoffSchedule.errors_follow_backoff_schedule
           3 LLM.always_down (LLM.SummaryPrompt "x")).
  - lia.
  - intros j _. exists (ProviderError "connection refused").
    split; [reflexivity | discriminate].
Defined.

Lemma provider_summary_clipped_witness :
  exists summary,
    fst (LLM.generate_summary LLM.wordy_service "Any text.") = Ok summary
    /\ List.length (split_on "." summary) <= 3
    /\ (3 < List.length
              (split_on "." (strip "First point. Second point. Third point. Fourth point.")) ->
        summary
        = (join ". " (firstn 2
             (split_on "." (strip "First point. Second point. Third point. Fourth point.")))
           ++ ".")%string).
Proof.
  exact (SummaryFacts.provider_summary_clipped
           LLM.wordy_service LLM.wordy_provider "Any text."
           "First point. Second point. Third point. Fourth point." eq_refl eq_refl).
Defined.

Lemma validate_returns_canonical_on_text_sentiment_witness :
  LLM.sentiment_is_text LLM.sparse_reply
  /\ exists c, LLM._validate_metadata LLM.str_sample (PDict LLM.sparse_reply) = Ok c
               /\ LLM.canonical c.
Proof.
  split; [exact I|].
  exact (ValidatorShape.validate_returns_canonical_on_text_sentiment
           LLM.str_sample LLM.sparse_reply I).
Defined.

Lemma validate_topics_shape_witness :
  dict_get_default LLM.sparse_reply "topics" (PList [])
  = PList [PStr "  "; PStr " markets "; PStr ""]
  /\ LLM._validate_metadata LLM.str_sample (PDict LLM.sparse_reply)
     = Ok {| LLM.title := Some "Weekly digest";
             LLM.topics := ["markets"; "Topic 2"; "Topic 3"];
             LLM.sentiment := "negative" |}
  /\ LLM.topics {| LLM.title := Some "Weekly digest";
                   LLM.topics := ["markets"; "Topic 2"; "Topic 3"];
                   LLM.sentiment := "negative" |}
     = (["markets"] ++ map LLM.placeholder (seq 2 2))%list.
Proof.
  split; [reflexivity|]. split; [reflexivity|].
  exact (ValidatorShape.validate_topics_shape
           LLM.str_sample LLM.sparse_reply
           [PStr "  "; PStr " markets "; PStr ""]
           {| LLM.title := Some "Weekly digest";
              LLM.topics := ["markets"; "Topic 2"; "Topic 3"];
              LLM.sentiment := "negative" |}
           eq_refl eq_refl).
Defined.

Lemma offline_summary_scored_as_fallback_witness :
  20 < List.length (split LLM.long_text)
  /\ endswith TextProc.fallback_marker (LLM._mock_summary LLM.long_text) = true
  /\ TextProc.calculate_confidence_score LLM.long_text (LLM._mock_summary LLM.long_text)
       ["one"; "two"; "three"]
     = TextProc.qmin 1 (TextProc.qmax 0
         (TextProc.score_before_quality LLM.long_text ["one"; "two"; "three"] + (1 # 10))%Q).
Proof.
  assert (H : 20 < List.length (split LLM.long_text)) by (vm_compute; lia).
  split; [exact H|].
  exact (MockFacts.offline_summary_scored_as_fallback
           LLM.long_text ["one"; "two"; "three"] H).
Defined.

Lemma confidence_score_monotone_in_keywords_witness :
  (TextProc.calculate_confidence_score "Short." TextProc.plain_summary ["cat"]
   <= TextProc.calculate_confidence_score "Short." TextProc.plain_summary ["cat"; "mat"])%Q.
Proof.
  apply (ConfidenceBounds.confidence_score_monotone_in_keywords
           "Short." TextProc.plain_summary ["cat"] ["cat"; "mat"]).
  cbn. lia.
Defined.

Lemma regex_tier_returns_top_scores_witness :
  TextProc.scored_words TextProc.basic_stop_words "alpha bravo running"
  = [("alpha", 2%Z); ("bravo", 2%Z); ("running", 1%Z)]
  /\ TextProc._extract_with_regex TextProc.basic_stop_words "alpha bravo running" 1
     = ["alpha"]
  /\ (1 <= 2)%Z.
Proof.
  split; [reflexivity|]. split; [reflexivity|].
  apply (KeywordOrder.regex_tier_returns_top_scores
           TextProc.basic_stop_words "alpha bravo running" 1 "alpha" "running" 2 1).
  - lia.
  - vm_compute. auto.
  - vm_compute. auto.
  - vm_compute. auto.
  - vm_compute. intros [H|[]]. discriminate H.
Defined.

Lemma nltk_tier_returns_most_frequent_witness :
  TextProc.nltk_nouns TextProc.basic_stop_words TextProc.blank_tokenize TextProc.all_nouns
    "cat cat dog bird" = Ok ["cat"; "cat"; "dog"; "bird"]
  /\ TextProc._extract_with_nltk TextProc.basic_stop_words TextProc.blank_tokenize
       TextProc.all_nouns "cat cat dog bird" 1 = Ok ["cat"]
  /\ In "cat"%string ["cat"; "cat"; "dog"; "bird"]%string
  /\ count_occ string_dec ["cat"; "cat"; "dog"; "bird"]%string "dog"
     <= count_occ string_dec ["cat"; "cat"; "dog"; "bird"]%string "cat".
Proof.
  split; [reflexivity|]. split; [reflexivity|].
  apply (KeywordOrder.nltk_tier_returns_most_frequent
           TextProc.basic_stop_words TextProc.blank_tokenize TextProc.all_nouns
           "cat cat dog bird" 1 ["cat"; "cat"; "dog"; "bird"] ["cat"] "cat" "dog").
  - lia.
  - reflexivity.
  - reflexivity.
  - now left.
  - right. right. now left.
  - intros [H|[]]. discriminate H.
Defined.


End MoreInstances.
